(** * IntelliDoc: a shallow embedding of [app.py]

    The application is a Streamlit script: [main] runs from top to bottom on
    every interaction, reading the widgets and reading and writing
    [st.session_state].  The embedding follows the file: the text extractor
    [get_pdf_text_and_metadata], the chunker [get_text_chunks], the chain built
    by [get_conversation_rag_chain], and one run of [main] as a function of the
    session state and of the widgets' values.

    What [app.py] takes from langchain and decides its behaviour
    ([CharacterTextSplitter], [create_history_aware_retriever],
    [create_retrieval_chain], [create_stuff_documents_chain]) is embedded as
    the library defines it.  PyPDF2, the embedding model, the FAISS store and
    the chat model are outside the program: a file comes with what PyPDF2
    reads in it, and the other services are parameters of a run.  A Python
    [str] is a [string], an [int] that counts is a [nat], and a length that
    enters the splitter's arithmetic is a [Z]. *)

From Stdlib Require Import ZArith Lia Ascii String DecimalString List Bool.
From stdpp Require Import base list strings gmap.
Import ListNotations.

Local Open Scope Z_scope.

(** ** Python values *)

(** A Python exception, by the name of its class. *)
Definition Exception := string.

(** The result of evaluating a Python expression that may raise. *)
Inductive Result (A : Type) : Type :=
| Ok (a : A)
| Raise (e : Exception).
Arguments Ok {A} a.
Arguments Raise {A} e.

Definition bind {A B} (r : Result A) (k : A -> Result B) : Result B :=
  match r with
  | Ok a => k a
  | Raise e => Raise e
  end.

Notation "x <- r ;; k" := (bind r (fun x => k))
  (at level 100, r at next level, right associativity).

Module Py.

(** [len(s)] of a [str]. *)
Definition len (s : string) : Z := Z.of_nat (String.length s).

(** Truth value of a [str]: only the empty string is false. *)
Definition truthy (s : string) : bool :=
  match s with
  | EmptyString => false
  | String _ _ => true
  end.

(** [c.isspace()] on the code points below 256. *)
Definition isspace (c : ascii) : bool :=
  let n := Z.of_nat (nat_of_ascii c) in
  ((9 <=? n) && (n <=? 13)) || ((28 <=? n) && (n <=? 32))
  || (n =? 133) || (n =? 160).

Fixpoint lstrip (s : string) : string :=
  match s with
  | EmptyString => EmptyString
  | String c rest => if isspace c then lstrip rest else s
  end.

(** [s.rstrip()]: a character is dropped when it is a space and all that
    follows it is dropped too. *)
Fixpoint rstrip (s : string) : string :=
  match s with
  | EmptyString => EmptyString
  | String c rest =>
      match rstrip rest with
      | EmptyString => if isspace c then EmptyString else String c EmptyString
      | r => String c r
      end
  end.

(** [s.strip()]. *)
Definition strip (s : string) : string := rstrip (lstrip s).

(** [sep.join(parts)]. *)
Fixpoint join (sep : string) (parts : list string) : string :=
  match parts with
  | [] => EmptyString
  | [p] => p
  | p :: rest => p +:+ sep +:+ join sep rest
  end.

(** [s.split(c)] for a one-character separator: the pieces between the
    occurrences of [c], empty pieces included. *)
Fixpoint split (c : ascii) (s : string) : list string :=
  match s with
  | EmptyString => [EmptyString]
  | String a rest =>
      if Ascii.eqb a c then EmptyString :: split c rest
      else match split c rest with
           | [] => [String a EmptyString]
           | p :: ps => String a p :: ps
           end
  end.


(** [str(n)] of a non-negative [int]. *)
Definition str_of_nat (n : nat) : string :=
  NilEmpty.string_of_uint (Nat.to_uint n).

End Py.

(** ** The text extractor *)

(** [langchain_core.documents.Document]; [metadata] has the two keys that
    [get_pdf_text_and_metadata] writes. *)
Record Document : Type := mkDocument {
  page_content : string;
  source : string;
  page : nat
}.

(** An uploaded file: its [name], and what PyPDF2 yields on it, either an
    exception from [PdfReader(pdf)] or the pages, each with what its
    [extract_text()] returns. *)
Record UploadedFile : Type := mkUploadedFile {
  name : string;
  reader_pages : Result (list (Result string))
}.

(** The inner loop of [get_pdf_text_and_metadata]:
    [for page_num, page in enumerate(pdf_reader.pages)], with [page_num] the
    index of the head of [pages]. *)
Fixpoint extract_pages (pdf_name : string) (page_num : nat)
    (pages : list (Result string)) (documents : list Document)
  : Result (list Document) :=
  match pages with
  | [] => Ok documents
  | page_ :: rest =>
      text <- page_ ;;
      extract_pages pdf_name (S page_num) rest
        (if Py.truthy text
         then documents ++ [mkDocument text pdf_name (page_num + 1)]
         else documents)
  end.

(** The outer loop, [for pdf in pdf_docs]. *)
Fixpoint extract_pdfs (pdf_docs : list UploadedFile) (documents : list Document)
  : Result (list Document) :=
  match pdf_docs with
  | [] => Ok documents
  | pdf :: rest =>
      pages <- reader_pages pdf ;;
      documents' <- extract_pages (name pdf) 0 pages documents ;;
      extract_pdfs rest documents'
  end.

Definition get_pdf_text_and_metadata (pdf_docs : list UploadedFile)
  : Result (list Document) :=
  extract_pdfs pdf_docs [].


(** ** The chunker *)

(** [langchain.text_splitter.CharacterTextSplitter], as [get_text_chunks]
    configures it: [separator], [chunk_size], [chunk_overlap] and
    [length_function=len] are the arguments written in [app.py];
    [keep_separator=False] and [strip_whitespace=True] are the library's
    defaults.  The methods are langchain's, under their names. *)
Module CharacterTextSplitter.

Definition separator_char : ascii := "010"%char.
Definition separator : string := String separator_char EmptyString.
Definition chunk_size : Z := 1000.
Definition chunk_overlap : Z := 200.
Definition length_function : string -> Z := Py.len.

(** [_split_text_with_regex(text, re.escape(separator), keep_separator=False)]:
    [re.split] on the separator, then [[s for s in splits if s != ""]]. *)
Definition split_text_with_regex (text : string) : list string :=
  List.filter Py.truthy (Py.split separator_char text).

(** [_join_docs]: [None] when the joined and stripped text is empty. *)
Definition join_docs (docs : list string) : option string :=
  let text := Py.strip (Py.join separator docs) in
  if Py.truthy text then Some text else None.

(** [docs.append(doc)] under [if doc is not None]. *)
Definition append_doc (docs : list string) (doc : option string) : list string :=
  match doc with
  | Some d => docs ++ [d]
  | None => docs
  end.

Definition nonempty {A} (l : list A) : bool :=
  match l with [] => false | _ :: _ => true end.

Definition several {A} (l : list A) : bool :=
  match l with _ :: _ :: _ => true | _ => false end.

(** [separator_len if len(current_doc) > 0 else 0]. *)
Definition sep_if {A} (b : list A -> bool) (current_doc : list A) : Z :=
  if b current_doc then length_function separator else 0.

(** [total + _len + (separator_len if len(current_doc) > 0 else 0)
     > self._chunk_size]. *)
Definition overflows (total _len : Z) (current_doc : list string) : bool :=
  chunk_size <? total + _len + sep_if nonempty current_doc.

(** The inner [while] of [_merge_splits], which pops [current_doc[0]]:
    [while total > chunk_overlap or (overflows and total > 0)].  Indexing
    an empty [current_doc] raises. *)
Fixpoint pop_while (_len : Z) (current_doc : list string) (total : Z)
  : Result (list string * Z) :=
  if (chunk_overlap <? total) || (overflows total _len current_doc && (0 <? total))
  then match current_doc with
       | [] => Raise "IndexError"
       | d0 :: rest =>
           pop_while _len rest
             (total - (length_function d0 + sep_if several current_doc))
       end
  else Ok (current_doc, total).

(** The [for d in splits] loop of [_merge_splits] and the lines after it. *)
Fixpoint merge_loop (splits : list string) (docs current_doc : list string)
    (total : Z) : Result (list string) :=
  match splits with
  | [] => Ok (append_doc docs (join_docs current_doc))
  | d :: rest =>
      let _len := length_function d in
      popped <-
        (if overflows total _len current_doc && nonempty current_doc
         then
           kept <- pop_while _len current_doc total ;;
           Ok (append_doc docs (join_docs current_doc), kept)
         else Ok (docs, (current_doc, total))) ;;
      let '(docs, (current_doc, total)) := popped in
      let current_doc := current_doc ++ [d] in
      merge_loop rest docs current_doc
        (total + (_len + sep_if several current_doc))
  end.

Definition merge_splits (splits : list string) : Result (list string) :=
  merge_loop splits [] [] 0.

Definition split_text (text : string) : Result (list string) :=
  merge_splits (split_text_with_regex text).

(** [create_documents], called by [split_documents] with the page contents
    and the metadata of [documents]: every chunk of a page carries a copy
    of the page's metadata. *)
Fixpoint split_documents (documents : list Document) : Result (list Document) :=
  match documents with
  | [] => Ok []
  | doc :: rest =>
      chunks <- split_text (page_content doc) ;;
      others <- split_documents rest ;;
      Ok (List.map (fun chunk => mkDocument chunk (source doc) (page doc)) chunks
          ++ others)
  end.

End CharacterTextSplitter.

Definition get_text_chunks (documents : list Document) : Result (list Document) :=
  CharacterTextSplitter.split_documents documents.

(** ** The conversational chain *)

(** An entry of [st.session_state.chat_history]: the [SystemMessage] the list
    starts with, or one of the tuples [("human", text)] and
    [("ai", text, docs)] that [main] appends. *)
Inductive Message : Type :=
| SystemMessage (content : string)
| Human (text : string)
| AI (text : string) (docs : list Document).

(** A formatted chat prompt: the [(role, content)] messages sent to the model. *)
Definition Prompt : Type := list (string * string).

(** What a run does to the outside: calls to the external services and
    output to the page.  Page chrome that reads and writes no state (title,
    headers, the help expander, spinners, icons) is left out. *)
Inductive Event : Type :=
| EmbedDocuments (chunks : list Document)
| LlmInvoke (prompt : Prompt)
| RetrieverInvoke (query : string)
| LlmStream (prompt : Prompt)
| Markdown (role text : string)
| WriteStream (fragment : string)
| Warning (body : string)
| Success (body : string).

(** A dict yielded by [rag_chain.stream]: the input passed through, the
    retrieved documents under ["context"], or a fragment under ["answer"]. *)
Inductive StreamChunk : Type :=
| InputChunk (chat_history : list Message) (input : string)
| ContextChunk (context : list Document)
| AnswerChunk (answer : string).

(** A finite generator, run to its end: the external calls it makes, the
    items it yields, and the exception that ends it, if any. *)
Record Stream : Type := mkStream {
  effects : list Event;
  chunks : list StreamChunk;
  failure : option Exception
}.

Definition nl : string := CharacterTextSplitter.separator.

Definition contextualize_q_system_prompt : string :=
  "Given a chat history and the latest user question "
  +:+ "which might reference context in the chat history, "
  +:+ "formulate a standalone question which can be understood "
  +:+ "without the chat history. Do NOT answer the question, "
  +:+ "just reformulate it if needed and otherwise return it as is.".

(** [contextualize_q_prompt], formatted: [chat_history] is the text Python
    puts for [{chat_history}]. *)
Definition contextualize_q_prompt (chat_history input : string) : Prompt :=
  [ ("system", contextualize_q_system_prompt);
    ("human", chat_history +:+ nl +:+ nl +:+ "Follow Up Input: " +:+ input) ].

Definition qa_system_prompt (context : string) : string :=
  "You are an assistant for question-answering tasks. Use the following pieces of retrieved context to answer "
  +:+ "the question. If you don't know the answer, just say that you don't know. Be concise and helpful."
  +:+ nl +:+ nl +:+ context.

(** [qa_prompt], formatted. *)
Definition qa_prompt (context input : string) : Prompt :=
  [ ("system", qa_system_prompt context); ("human", input) ].

(** [create_stuff_documents_chain] puts for [{context}] the page contents
    joined by a blank line. *)
Definition format_docs (docs : list Document) : string :=
  Py.join (nl +:+ nl) (List.map page_content docs).

Section Chain.

(** The FAISS store built from the chunks and their embeddings. *)
Variable VectorStore : Type.

(** The external services: embedding and indexing, similarity search, the
    chat model called once (rewriting) and in streaming mode (answering),
    and Python's [str] of the history list. *)
Record Services : Type := mkServices {
  from_documents : list Document -> Result VectorStore;
  retriever_invoke : VectorStore -> string -> Result (list Document);
  llm_invoke : Prompt -> Result string;
  llm_stream : Prompt -> list string * option Exception;
  str_of_history : list Message -> string
}.

(** The chain returned by [get_conversation_rag_chain]: the prompts are
    constants, the retriever is the store's. *)
Record RagChain : Type := mkRagChain { retriever : VectorStore }.

Definition get_conversation_rag_chain (vectorstore : VectorStore) : RagChain :=
  mkRagChain vectorstore.

Variable ext : Services.

(** [get_vectorstore]. *)
Definition get_vectorstore (text_chunks : list Document) : Result VectorStore :=
  from_documents ext text_chunks.

(** langchain's [create_history_aware_retriever(llm, retriever, prompt)]: a
    branch on [not x.get("chat_history", False)]; with no history the
    input goes to the retriever, otherwise
    [prompt | llm | StrOutputParser() | retriever]. *)
Definition history_aware_retriever (chain : RagChain)
    (chat_history : list Message) (input : string)
  : list Event * Result (list Document) :=
  match chat_history with
  | [] => ([RetrieverInvoke input], retriever_invoke ext (retriever chain) input)
  | _ :: _ =>
      let prompt := contextualize_q_prompt (str_of_history ext chat_history) input in
      match llm_invoke ext prompt with
      | Raise e => ([LlmInvoke prompt], Raise e)
      | Ok query =>
          ([LlmInvoke prompt; RetrieverInvoke query],
           retriever_invoke ext (retriever chain) query)
      end
  end.

(** [rag_chain.stream({"chat_history": ..., "input": ...})] for
    [create_retrieval_chain(history_aware_retriever, question_answer_chain)]:
    the input is passed through, ["context"] is assigned the retrieved
    documents, and ["answer"] streams the model's output on [qa_prompt]. *)
Definition rag_chain_stream (chain : RagChain)
    (chat_history : list Message) (input : string) : Stream :=
  let '(calls, retrieved) := history_aware_retriever chain chat_history input in
  match retrieved with
  | Raise e => mkStream calls [InputChunk chat_history input] (Some e)
  | Ok context =>
      let prompt := qa_prompt (format_docs context) input in
      let '(fragments, failed) := llm_stream ext prompt in
      mkStream (calls ++ [LlmStream prompt])
        (InputChunk chat_history input :: ContextChunk context
         :: List.map AnswerChunk fragments)
        failed
  end.

End Chain.

Arguments mkServices {VectorStore}.
Arguments from_documents {VectorStore}.
Arguments retriever_invoke {VectorStore}.
Arguments llm_invoke {VectorStore}.
Arguments llm_stream {VectorStore}.
Arguments str_of_history {VectorStore}.
Arguments mkRagChain {VectorStore}.
Arguments retriever {VectorStore}.
Arguments get_conversation_rag_chain {VectorStore}.
Arguments get_vectorstore {VectorStore}.
Arguments history_aware_retriever {VectorStore}.
Arguments rag_chain_stream {VectorStore}.

(** ** One run of the script *)

(** The values the widgets return in a run: the uploader's files, the two
    buttons, and the chat input ([None] when nothing was submitted). *)
Record Widgets : Type := mkWidgets {
  pdf_docs : list UploadedFile;
  process_clicked : bool;
  clear_clicked : bool;
  user_question : option string
}.

(** How a run ends: at the end of [main], at an [st.rerun()], or on an
    exception that nothing in [main] catches. *)
Inductive Outcome : Type :=
| Finished
| Rerun
| Raised (e : Exception).

Definition greeting : Message :=
  SystemMessage "Hello! I'm IntelliDoc. Upload your documents to get started.".

(** The citations shown under an answer:
    [set(f"{doc.metadata['source']} (Page {doc.metadata['page']})" for doc in message[2])]. *)
Definition source_lines (docs : list Document) : gset string :=
  list_to_set
    (List.map (fun doc => source doc +:+ " (Page " +:+ Py.str_of_nat (page doc) +:+ ")")
       docs).

(** The body of the loop that draws the history (lines 130 to 145).  The
    order in which Python iterates over the set is not specified; the
    model lists it with [elements]. *)
Definition render_message (message : Message) : list Event :=
  match message with
  | SystemMessage content => [Markdown "assistant" content]
  | Human text => [Markdown "user" text]
  | AI text docs =>
      Markdown "assistant" text ::
      match docs with
      | [] => []
      | _ :: _ =>
          Markdown "assistant" "---" :: Markdown "assistant" "**Sources:**" ::
          List.map (fun source => Markdown "assistant" ("- " +:+ source))
            (elements (source_lines docs))
      end
  end.

(** [chunk["answer"] for chunk in stream if "answer" in chunk]. *)
Definition answers (stream_chunks : list StreamChunk) : list string :=
  omap (fun chunk => match chunk with AnswerChunk a => Some a | _ => None end)
    stream_chunks.

Section Main.

Variable VectorStore : Type.
Variable ext : Services VectorStore.

(** [st.session_state]: a key is absent until [main] sets it. *)
Record SessionState : Type := mkSessionState {
  conversation : option (option (RagChain VectorStore));
  chat_history : option (list Message)
}.

(** A step of the script: it reads and writes the session state, adds to
    the events, and either goes on with a value or ends the run. *)
Inductive Step (A : Type) : Type :=
| Next (a : A)
| Stop (o : Outcome).
Arguments Next {A} a.
Arguments Stop {A} o.

Definition App (A : Type) : Type :=
  SessionState -> SessionState * list Event * Step A.

Definition ret {A} (a : A) : App A := fun s => (s, [], Next a).

Definition app_bind {A B} (m : App A) (k : A -> App B) : App B :=
  fun s =>
    let '(s1, ev1, r) := m s in
    match r with
    | Next a => let '(s2, ev2, r2) := k a s1 in (s2, ev1 ++ ev2, r2)
    | Stop o => (s1, ev1, Stop o)
    end.

Notation "x <~ m ;; k" := (app_bind m (fun x => k))
  (at level 100, m at next level, right associativity).
Notation "m ;;; k" := (app_bind m (fun _ => k))
  (at level 100, right associativity).

Definition get : App SessionState := fun s => (s, [], Next s).
Definition put (s : SessionState) : App unit := fun _ => (s, [], Next tt).
Definition emit (evs : list Event) : App unit := fun s => (s, evs, Next tt).
Definition st_rerun {A} : App A := fun s => (s, [], Stop Rerun).

(** A Python expression that may raise: the exception ends the run. *)
Definition lift {A} (r : Result A) : App A :=
  fun s => (s, [], match r with Ok a => Next a | Raise e => Stop (Raised e) end).

Definition when (b : bool) (m : App unit) : App unit := if b then m else ret tt.

(** Lines 86 to 91. *)
Definition init_session : App unit :=
  s <~ get ;;
  when (negb (bool_decide (is_Some (conversation s))))
    (put (mkSessionState (Some None) (chat_history s))) ;;;
  s <~ get ;;
  when (negb (bool_decide (is_Some (chat_history s))))
    (put (mkSessionState (conversation s) (Some [greeting]))).

(** The history and the chain once [init_session] has run. *)
Definition history_of (s : SessionState) : list Message :=
  default [] (chat_history s).

Definition chain_of (s : SessionState) : option (RagChain VectorStore) :=
  default None (conversation s).

(** Lines 99 to 108. *)
Definition process_button (w : Widgets) : App unit :=
  when (process_clicked w)
    (match pdf_docs w with
     | _ :: _ =>
         documents <~ lift (get_pdf_text_and_metadata (pdf_docs w)) ;;
         text_chunks <~ lift (get_text_chunks documents) ;;
         emit [EmbedDocuments text_chunks] ;;;
         vectorstore <~ lift (get_vectorstore ext text_chunks) ;;
         s <~ get ;;
         put (mkSessionState (Some (Some (get_conversation_rag_chain vectorstore)))
                (chat_history s)) ;;;
         emit [Success "Processing complete!"]
     | [] => emit [Warning "Please upload at least one PDF file."]
     end).

(** Lines 110 to 114. *)
Definition clear_button (w : Widgets) : App unit :=
  when (clear_clicked w)
    (s <~ get ;;
     put (mkSessionState (conversation s) (Some [greeting])) ;;;
     st_rerun).

(** Lines 127 to 145. *)
Definition render_history : App unit :=
  s <~ get ;;
  emit (List.concat (List.map render_message (history_of s))).

(** [st.write_stream]: the fragments are written as they arrive and the
    call returns their concatenation; an exception raised by the
    generator goes through. *)
Definition write_stream (stream : Stream) : App string :=
  emit (effects stream ++ List.map WriteStream (answers (chunks stream))) ;;;
  match failure stream with
  | Some e => lift (Raise e)
  | None => ret (Py.join "" (answers (chunks stream)))
  end.

(** Lines 147 to 164. *)
Definition chat_input (w : Widgets) : App unit :=
  match user_question w with
  | None => ret tt
  | Some question =>
      when (Py.truthy question)
        (s <~ get ;;
         match chain_of s with
         | Some chain =>
             emit [Markdown "user" question] ;;;
             response <~ write_stream
               (rag_chain_stream ext chain (history_of s) question) ;;
             s <~ get ;;
             put (mkSessionState (conversation s)
                    (Some (history_of s ++ [Human question]))) ;;;
             s <~ get ;;
             put (mkSessionState (conversation s)
                    (Some (history_of s ++ [AI response []]))) ;;;
             st_rerun
         | None =>
             emit [Warning "Please upload and process your documents first."]
         end)
  end.

Definition script (w : Widgets) : App unit :=
  init_session ;;;
  process_button w ;;;
  clear_button w ;;;
  render_history ;;;
  chat_input w.

(** [main()] on the widget values [w], from the session state [s]: the
    session state it leaves, what it did, and how it ended. *)
Definition main (w : Widgets) (s : SessionState)
  : SessionState * list Event * Outcome :=
  let '(s', evs, r) := script w s in
  (s', evs, match r with Next _ => Finished | Stop o => o end).

End Main.

Arguments mkSessionState {VectorStore}.
Arguments conversation {VectorStore}.
Arguments chat_history {VectorStore}.
Arguments history_of {VectorStore}.
Arguments chain_of {VectorStore}.
Arguments Next {A} a.
Arguments Stop {A} o.
Arguments init_session {VectorStore}.
Arguments process_button {VectorStore}.
Arguments clear_button {VectorStore}.
Arguments render_history {VectorStore}.
Arguments write_stream {VectorStore}.
Arguments chat_input {VectorStore}.
Arguments script {VectorStore}.
Arguments main {VectorStore}.
Arguments App VectorStore A : clear implicits.
Arguments app_bind {VectorStore A B}.
Arguments ret {VectorStore A}.
Arguments get {VectorStore}.
Arguments put {VectorStore}.
Arguments emit {VectorStore}.
Arguments st_rerun {VectorStore A}.
Arguments lift {VectorStore A}.
Arguments when {VectorStore}.

(** * Definitions used by the properties *)

(** ** The text extractor *)

(** A file that PyPDF2 reads without error, given by its name and the text
    of each of its pages. *)
Definition readable (file : string * list string) : UploadedFile :=
  mkUploadedFile file.1 (Ok (List.map Ok file.2)).

(** The record of the page at index [i], if the loop keeps it. *)
Definition page_record (pdf_name : string) (i : nat) (text : string)
  : option Document :=
  if Py.truthy text then Some (mkDocument text pdf_name (i + 1)) else None.

Definition page_records (pdf_name : string) (first : nat) (texts : list string)
  : list Document :=
  omap id (imap (fun j => page_record pdf_name (first + j)) texts).


(** A file of four pages: the second is empty, the third holds one space. *)
Definition ex_pdf : UploadedFile :=
  readable ("a.pdf", ["x"; ""; " "; "y"]).

(** ** The script *)

(** The session state after lines 86 to 91. *)
Definition initialised {VectorStore} (s : SessionState VectorStore)
  : SessionState VectorStore :=
  mkSessionState (Some (chain_of s))
    (Some (match chat_history s with Some h => h | None => [greeting] end)).

(** The session states a browser session can be in: the empty state it
    starts with, and the state any run of [main] leaves, whatever the widgets
    hold and whatever the external services answer in that run. *)
Inductive reachable {VectorStore} : SessionState VectorStore -> Prop :=
| reachable_start : reachable (mkSessionState None None)
| reachable_run ext w s : reachable s -> reachable (main ext w s).1.1.

(** The events that call an external service. *)
Definition is_external_call (ev : Event) : bool :=
  match ev with
  | EmbedDocuments _ | LlmInvoke _ | RetrieverInvoke _ | LlmStream _ => true
  | Markdown _ _ | WriteStream _ | Warning _ | Success _ => false
  end.

(** The queries sent to the retriever, the prompts of the rewriting calls,
    and the prompts of the answering calls, in order. *)
Definition queries (evs : list Event) : list string :=
  omap (fun ev => match ev with RetrieverInvoke q => Some q | _ => None end) evs.

Definition rewrite_calls (evs : list Event) : list Prompt :=
  omap (fun ev => match ev with LlmInvoke p => Some p | _ => None end) evs.

Definition answer_calls (evs : list Event) : list Prompt :=
  omap (fun ev => match ev with LlmStream p => Some p | _ => None end) evs.

(** The deduplicated set of [(sourceName, pageNumber)] of some chunks. *)
Definition cited (docs : list Document) : gset (string * nat) :=
  list_to_set (List.map (fun d => (source d, page d)) docs).

(** The sources an entry of the history carries. *)
Definition turn_sources (message : Message) : gset (string * nat) :=
  match message with
  | AI _ docs => cited docs
  | _ => ∅
  end.

(** The chunks a stream hands to answer synthesis: what it yields under
    ["context"]. *)
Definition context_of (stream : Stream) : list Document :=
  List.concat
    (omap (fun chunk => match chunk with ContextChunk docs => Some docs | _ => None end)
       (chunks stream)).

(** A run in which only a question is submitted. *)
Definition ask (question : string) : Widgets :=
  mkWidgets [] false false (Some question).

(** Services for the examples: the store is the list of chunks, search
    returns the first four, the rewriting call answers with a fixed query
    and the answering call streams two fragments. *)
Definition ex_services : Services (list Document) :=
  mkServices (fun chunks => Ok chunks) (fun vs _ => Ok (firstn 4 vs))
    (fun _ => Ok "REWRITTEN") (fun _ => (["Hello"; " world"], None))
    (fun _ => "[...]").

(** The same services with an answering call that fails after two
    fragments. *)
Definition ex_failing : Services (list Document) :=
  mkServices (fun chunks => Ok chunks) (fun vs _ => Ok (firstn 4 vs))
    (fun _ => Ok "REWRITTEN") (fun _ => (["Hello"; " world"], Some "GenerationError"))
    (fun _ => "[...]").

(** The session after [ex_pdf] has been processed, before any question. *)
Definition ex_ready : SessionState (list Document) :=
  mkSessionState
    (Some (Some (mkRagChain [mkDocument "x" "a.pdf" 1; mkDocument "y" "a.pdf" 4])))
    (Some [greeting]).

(** A fresh session, nothing processed. *)
Definition ex_fresh : SessionState (list Document) := mkSessionState None None.

(** The events that the chain raises: calls to the model and the retriever. *)
Definition is_chain_call (ev : Event) : bool :=
  match ev with
  | LlmInvoke _ | RetrieverInvoke _ | LlmStream _ => true
  | EmbedDocuments _ | Markdown _ _ | WriteStream _ | Warning _ | Success _ => false
  end.

Definition chain_calls (evs : list Event) : list Event :=
  omap (fun ev => if is_chain_call ev then Some ev else None) evs.

(** ** The chunker *)

(** The length of some lines joined by the separator. *)
Definition joined_len (lines : list string) : Z :=
  Py.len (Py.join CharacterTextSplitter.separator lines).

(** A chunk before it is joined: the lines carried over from the chunk
    before it, then the lines that are new to it. *)
Definition Group : Type := list string * list string.

Definition group_lines (g : Group) : list string := g.1 ++ g.2.

Definition chunk_of (g : Group) : option string :=
  CharacterTextSplitter.join_docs (group_lines g).

(** How each group follows the one before it, whose lines are [previous].
    The group before was closed because the first new line of this one did
    not fit after it.  This group starts with lines that end the group
    before: the longest such run that has at most [chunk_overlap]
    characters and after which that new line fits within [chunk_size]
    (none, when no run does). *)
Fixpoint carried_from (previous : list string) (groups : list Group) : Prop :=
  match groups with
  | [] => True
  | g :: rest =>
      g.1 `suffix_of` previous
      /\ joined_len g.1 <= CharacterTextSplitter.chunk_overlap
      /\ (exists line new,
            g.2 = line :: new
            /\ CharacterTextSplitter.chunk_size
               < joined_len previous + Py.len line + 1
            /\ (g.1 = []
                \/ joined_len g.1 + Py.len line + 1
                   <= CharacterTextSplitter.chunk_size)
            /\ forall longer,
                 longer `suffix_of` previous ->
                 (length g.1 < length longer)%nat ->
                 CharacterTextSplitter.chunk_overlap < joined_len longer
                 \/ CharacterTextSplitter.chunk_size
                    < joined_len longer + Py.len line + 1)
      /\ carried_from (group_lines g) rest
  end.

(** A group fits when its lines, joined, have at most [chunk_size]
    characters, or when it is one line alone. *)
Definition fits (g : Group) : Prop :=
  joined_len (group_lines g) <= CharacterTextSplitter.chunk_size
  \/ exists line, group_lines g = [line].

(** [page_chunks] pack [lines]: they are the groups joined and stripped
    (a group that comes out empty gives no chunk); the first group carries
    nothing and starts with the first line, the new lines of the groups are
    [lines] in order, each group follows the one before it as [carried_from]
    says, and every group fits. *)
Definition packing (lines : list string) (page_chunks : list string) : Prop :=
  exists first rest,
    page_chunks = omap chunk_of (([], first) :: rest)
    /\ first ++ List.concat (List.map snd rest) = lines
    /\ carried_from first rest
    /\ Forall fits (([], first) :: rest).

(** The chunks of a page, under the metadata of the page. *)
Definition tagged (doc : Document) (page_chunks : list string) : list Document :=
  List.map (fun chunk => mkDocument chunk (source doc) (page doc)) page_chunks.

(** [n] times the character [c]. *)
Definition rep (n : nat) (c : ascii) : string :=
  string_of_list_ascii (List.repeat c n).



(** A page of twelve lines of 150 characters, [a] to [l]. *)
Definition ex_even_page : Document :=
  mkDocument
    (Py.join nl
       (List.map (rep 150)
          ["a"; "b"; "c"; "d"; "e"; "f"; "g"; "h"; "i"; "j"; "k"; "l"]%char))
    "a.pdf" 1.

(** ** Further definitions *)

(** What the Process branch computes from the uploaded files: the records,
    their chunks, and the store built from the chunks. *)
Definition index_of {VectorStore} (ext : Services VectorStore)
    (files : list UploadedFile) : Result VectorStore :=
  documents <- get_pdf_text_and_metadata files ;;
  text_chunks <- get_text_chunks documents ;;
  get_vectorstore ext text_chunks.

(** The entries that the turns [(question, response)] leave in the history. *)
Definition turns (qa : list (string * string)) : list Message :=
  List.concat (List.map (fun t => [Human t.1; AI t.2 []]) qa).

(** The one markdown that shows an entry of the history. *)
Definition bubble (message : Message) : Event :=
  match message with
  | SystemMessage content => Markdown "assistant" content
  | Human text => Markdown "user" text
  | AI text _ => Markdown "assistant" text
  end.

(** The citation line of a chunk, as drawn under an answer. *)
Definition citation (doc : Document) : string :=
  source doc +:+ " (Page " +:+ Py.str_of_nat (page doc) +:+ ")".

(** The fragments written to the page by [st.write_stream]. *)
Definition written (evs : list Event) : list string :=
  omap (fun ev => match ev with WriteStream f => Some f | _ => None end) evs.

(** The chunks sent to the embedding model. *)
Definition embedded (evs : list Event) : list (list Document) :=
  omap (fun ev => match ev with EmbedDocuments c => Some c | _ => None end) evs.

(** A text of white space only ([""] included). *)
Fixpoint blank (s : string) : bool :=
  match s with
  | EmptyString => true
  | String c rest => Py.isspace c && blank rest
  end.

(** Services whose rewriting call fails. *)
Definition ex_no_rewrite : Services (list Document) :=
  mkServices (fun chunks => Ok chunks) (fun vs _ => Ok (firstn 4 vs))
    (fun _ => Raise "RewriteError") (fun _ => (["Hello"; " world"], None))
    (fun _ => "[...]").

(** * Properties *)

(** ** The text extractor *)

Lemma truthy_nonempty (s : string) : Py.truthy s = true <-> s <> "".
Proof. destruct s; simpl; split; congruence. Qed.

Lemma page_records_cons pdf_name first text texts :
  page_records pdf_name first (text :: texts) =
  match page_record pdf_name first text with
  | Some d => d :: page_records pdf_name (S first) texts
  | None => page_records pdf_name (S first) texts
  end.
Proof.
  unfold page_records. rewrite imap_cons. cbn [omap list_omap].
  replace (first + 0)%nat with first by lia.
  assert (E : imap ((fun j => page_record pdf_name (first + j)) ∘ S) texts
              = imap (fun j => page_record pdf_name (S first + j)) texts).
  { apply imap_ext. intros j x _. simpl. f_equal. lia. }
  rewrite E. destruct (page_record pdf_name first text); reflexivity.
Qed.

Lemma extract_pages_readable texts : forall pdf_name i documents,
  extract_pages pdf_name i (List.map Ok texts) documents
  = Ok (documents ++ page_records pdf_name i texts).
Proof.
  induction texts as [|text texts IH]; intros pdf_name i documents.
  - simpl. unfold page_records. simpl. by rewrite app_nil_r.
  - cbn [List.map extract_pages bind]. rewrite IH, page_records_cons.
    unfold page_record. destruct (Py.truthy text); [|reflexivity].
    by rewrite <- app_assoc.
Qed.

Lemma extract_pages_inv pages : forall pdf_name i documents out,
  extract_pages pdf_name i pages documents = Ok out ->
  exists texts, pages = List.map Ok texts.
Proof.
  induction pages as [|p pages IH]; intros pdf_name i documents out H.
  - by exists [].
  - destruct p as [text|e]; [|discriminate]. simpl in H.
    apply IH in H as [texts ->]. by exists (text :: texts).
Qed.

Lemma extract_pdfs_readable files : forall documents,
  extract_pdfs (List.map readable files) documents
  = Ok (documents ++ List.concat (List.map (fun f => page_records f.1 0 f.2) files)).
Proof.
  induction files as [|[n texts] files IH]; intros documents.
  - simpl. by rewrite app_nil_r.
  - cbn [List.map extract_pdfs readable reader_pages name bind fst snd].
    rewrite extract_pages_readable. cbn [bind]. rewrite IH.
    cbn [List.concat List.map fst snd]. by rewrite app_assoc.
Qed.

Lemma extract_pdfs_inv pdfs : forall documents out,
  extract_pdfs pdfs documents = Ok out ->
  exists files, pdfs = List.map readable files.
Proof.
  induction pdfs as [|[n r] pdfs IH]; intros documents out H.
  - by exists [].
  - destruct r as [pages|e]; [|discriminate]. cbn in H.
    destruct (extract_pages n 0 pages documents) as [d'|e] eqn:E; [|discriminate].
    apply extract_pages_inv in E as [texts ->].
    cbn in H. apply IH in H as [files ->].
    by exists ((n, texts) :: files).
Qed.

Lemma elem_of_page_records pdf_name texts d :
  d ∈ page_records pdf_name 0 texts <->
  exists i text, texts !! i = Some text /\ text <> ""
                 /\ d = mkDocument text pdf_name (i + 1).
Proof.
  unfold page_records. rewrite list_elem_of_omap. split.
  - intros (o & Ho & Hd). simpl in Hd. subst o.
    apply elem_of_lookup_imap in Ho as (i & text & Hrec & Hi).
    unfold page_record in Hrec. simpl in Hrec.
    destruct (Py.truthy text) eqn:T; [|discriminate].
    exists i, text. apply truthy_nonempty in T. by inversion Hrec.
  - intros (i & text & Hi & Hne & ->).
    exists (Some (mkDocument text pdf_name (i + 1))). split; [|done].
    apply elem_of_lookup_imap. exists i, text. split; [|done].
    unfold page_record. simpl. apply truthy_nonempty in Hne. by rewrite Hne.
Qed.

Lemma elem_of_all_records files d :
  d ∈ List.concat (List.map (fun f => page_records f.1 0 f.2) files) <->
  exists pdf_name texts i text,
    (pdf_name, texts) ∈ files /\ texts !! i = Some text /\ text <> ""
    /\ d = mkDocument text pdf_name (i + 1).
Proof.
  induction files as [|[n texts] files IH]; simpl.
  - split; [intros H; inversion H|]. intros (?&?&?&?&H&_). inversion H.
  - rewrite elem_of_app, IH, elem_of_page_records. split.
    + intros [(i & text & ?)|(n' & t' & i & text & ? & ?)].
      * exists n, texts, i, text. split; [left|done].
      * exists n', t', i, text. split; [by right|done].
    + intros (n' & t' & i & text & Hin & ?).
      apply elem_of_cons in Hin as [Heq|Hin].
      * inversion Heq; subst. left. by exists i, text.
      * right. by exists n', t', i, text.
Qed.



Lemma get_pdf_text_readable files :
  get_pdf_text_and_metadata (List.map readable files)
  = Ok (List.concat (List.map (fun f => page_records f.1 0 f.2) files)).
Proof. unfold get_pdf_text_and_metadata. by rewrite extract_pdfs_readable. Qed.




(** C9: the page number of a record is the index of its page in the file
    plus one, whatever pages were skipped before it: the records are
    exactly the pages with some text, each under its own position. *)
Theorem page_numbers_are_positions (pdf_docs : list UploadedFile)
    (documents : list Document) :
  get_pdf_text_and_metadata pdf_docs = Ok documents ->
  forall d,
    d ∈ documents <->
    exists pdf pages i text,
      pdf ∈ pdf_docs /\ reader_pages pdf = Ok pages
      /\ pages !! i = Some (Ok text) /\ text <> ""
      /\ d = mkDocument text (name pdf) (i + 1).
Proof.
  intros Hrun d. unfold get_pdf_text_and_metadata in Hrun.
  destruct (extract_pdfs_inv _ _ _ Hrun) as [files ->].
  rewrite extract_pdfs_readable in Hrun. simpl in Hrun.
  inversion Hrun; subst documents; clear Hrun.
  rewrite elem_of_all_records. split.
  - intros (n & texts & i & text & Hin & Hi & Hne & ->).
    exists (readable (n, texts)), (List.map Ok texts), i, text.
    split; [by apply (list_elem_of_fmap_2 readable)|].
    split; [reflexivity|]. split; [|done].
    change (List.map Ok texts) with (Ok <$> texts).
    by rewrite list_lookup_fmap, Hi.
  - intros (pdf & pages & i & text & Hin & Hpages & Hi & Hne & ->).
    apply (list_elem_of_fmap_1 readable) in Hin as ([n texts] & -> & Hin).
    simpl in Hpages. inversion Hpages; subst pages; clear Hpages.
    change (List.map Ok texts) with (Ok <$> texts) in Hi.
    rewrite list_lookup_fmap in Hi.
    destruct (texts !! i) as [t|] eqn:Et; [|discriminate].
    simpl in Hi. inversion Hi; subst t.
    by exists n, texts, i, text.
Qed.

Lemma page_numbers_are_positions_witness :
  mkDocument "y" "a.pdf" 4 ∈
    [mkDocument "x" "a.pdf" 1; mkDocument " " "a.pdf" 3; mkDocument "y" "a.pdf" 4]
  <-> exists pdf pages i text,
      pdf ∈ [ex_pdf] /\ reader_pages pdf = Ok pages
      /\ pages !! i = Some (Ok text) /\ text <> ""
      /\ mkDocument "y" "a.pdf" 4 = mkDocument text (name pdf) (i + 1).
Proof.
  apply (page_numbers_are_positions [ex_pdf]). reflexivity.
Defined.

(** ** The script *)

Section Script.

Context {VectorStore : Type}.
Implicit Types (ext : Services VectorStore) (s : SessionState VectorStore)
  (w : Widgets).

Lemma init_session_eq s : init_session s = (initialised s, [], Next tt).
Proof. by destruct s as [[c|] [h|]]. Qed.

Lemma history_initialised s :
  chat_history (initialised s) = Some (history_of (initialised s)).
Proof. reflexivity. Qed.

Lemma chain_initialised s : chain_of (initialised s) = chain_of s.
Proof. reflexivity. Qed.

Lemma process_button_idle ext w s :
  process_clicked w = false -> process_button ext w s = (s, [], Next tt).
Proof. unfold process_button. by intros ->. Qed.

(** Whatever happens in the Process branch, it ends normally or on an
    exception, and the history is the one it started from. *)
Lemma process_button_history ext w s :
  exists conv evs r,
    process_button ext w s = (mkSessionState conv (chat_history s), evs, r)
    /\ (r = Next tt \/ exists e, r = Stop (Raised e)).
Proof.
  destruct s as [conv hist]. unfold process_button.
  destruct (process_clicked w); simpl; [|by eauto 6].
  destruct (pdf_docs w) as [|pdf pdfs]; [by eauto 6|].
  unfold app_bind, lift, get, put, emit. simpl.
  destruct (get_pdf_text_and_metadata (pdf :: pdfs)) as [documents|e];
    [|by eauto 8].
  destruct (get_text_chunks documents) as [text_chunks|e]; [|by eauto 8].
  simpl. destruct (get_vectorstore ext text_chunks) as [vs|e]; by eauto 8.
Qed.

Lemma clear_button_idle w s :
  clear_clicked w = false -> clear_button w s = (s, [], Next tt).
Proof. unfold clear_button. by intros ->. Qed.

Lemma clear_button_clicked w s :
  clear_clicked w = true ->
  clear_button w s
  = (mkSessionState (conversation s) (Some [greeting]), [], Stop Rerun).
Proof. unfold clear_button. by intros ->. Qed.

Lemma render_history_eq s :
  render_history s
  = (s, List.concat (List.map render_message (history_of s)), Next tt).
Proof. reflexivity. Qed.

Lemma render_is_page_output (h : list Message) :
  Forall (fun ev => is_external_call ev = false)
    (List.concat (List.map render_message h)).
Proof.
  induction h as [|m h IH]; simpl; [constructor|].
  apply Forall_app. split; [|exact IH].
  destruct m as [c|t|t docs]; simpl; repeat constructor.
  destruct docs; [constructor|]. repeat constructor.
  apply Forall_forall. intros ev Hev. apply list_elem_of_In in Hev.
  apply in_map_iff in Hev as (x & <- & _). reflexivity.
Qed.

Lemma chat_input_idle ext w s :
  user_question w = None -> chat_input ext w s = (s, [], Next tt).
Proof. unfold chat_input. by intros ->. Qed.

(** The question branch with no chain in the session. *)
Lemma chat_input_not_ready ext w s q :
  user_question w = Some q -> q <> "" -> chain_of s = None ->
  chat_input ext w s
  = (s, [Warning "Please upload and process your documents first."], Next tt).
Proof.
  intros Hq Hne Hc. unfold chat_input. rewrite Hq.
  apply truthy_nonempty in Hne. rewrite Hne. simpl.
  unfold app_bind, get. simpl. by rewrite Hc.
Qed.

(** The question branch with a chain, by how the stream ends. *)
Lemma chat_input_turn ext w s q chain :
  user_question w = Some q -> q <> "" -> chain_of s = Some chain ->
  let stream := rag_chain_stream ext chain (history_of s) q in
  let evs := Markdown "user" q :: effects stream
             ++ List.map WriteStream (answers (chunks stream)) in
  chat_input ext w s =
  match failure stream with
  | Some e => (s, evs, Stop (Raised e))
  | None =>
      (mkSessionState (conversation s)
         (Some (history_of s
                ++ [Human q; AI (Py.join "" (answers (chunks stream))) []])),
       evs, Stop Rerun)
  end.
Proof.
  intros Hq Hne Hc. unfold chat_input. rewrite Hq.
  apply truthy_nonempty in Hne. rewrite Hne. simpl.
  unfold app_bind at 1. unfold get at 1. rewrite Hc. simpl.
  unfold write_stream, app_bind, emit, lift, ret, get, put, st_rerun. simpl.
  destruct (failure (rag_chain_stream ext chain (history_of s) q)); simpl.
  - by rewrite !app_nil_r.
  - rewrite !app_nil_r. unfold history_of. simpl.
    by rewrite <- app_assoc.
Qed.

(** The whole script, when no button is clicked. *)
Lemma script_no_button ext w s :
  process_clicked w = false -> clear_clicked w = false ->
  script ext w s =
  let '(s', evs, r) := chat_input ext w (initialised s) in
  (s', List.concat (List.map render_message (history_of (initialised s))) ++ evs, r).
Proof.
  intros Hp Hc. unfold script.
  unfold app_bind at 1. rewrite init_session_eq.
  unfold app_bind at 1. rewrite (process_button_idle _ _ _ Hp).
  unfold app_bind at 1. rewrite (clear_button_idle _ _ Hc).
  unfold app_bind at 1. rewrite render_history_eq.
  destruct (chat_input ext w (initialised s)) as [[s' evs] r]. reflexivity.
Qed.

End Script.

Section Runs.

Context {VectorStore : Type}.
Implicit Types (ext : Services VectorStore) (s : SessionState VectorStore)
  (w : Widgets).

(** What a run can do to the history, by how the run ends. *)
Lemma main_history ext w s s' evs outcome :
  main ext w s = (s', evs, outcome) ->
  let h := history_of (initialised s) in
  (chat_history s' = Some h /\ outcome <> Rerun)
  \/ (outcome = Rerun /\ clear_clicked w = true
      /\ chat_history s' = Some [greeting])
  \/ (outcome = Rerun /\ clear_clicked w = false
      /\ exists q response,
           user_question w = Some q
           /\ chat_history s' = Some (h ++ [Human q; AI response []])).
Proof.
  intros Hrun h. unfold main, script in Hrun.
  unfold app_bind at 1 in Hrun. rewrite init_session_eq in Hrun.
  unfold app_bind at 1 in Hrun.
  destruct (process_button_history ext w (initialised s))
    as (conv & evs1 & r1 & Hpb & Hr1).
  rewrite Hpb in Hrun. clear Hpb.
  destruct Hr1 as [-> | [e ->]].
  2:{ inversion Hrun; subst. left. split; [reflexivity|discriminate]. }
  unfold app_bind at 1 in Hrun.
  destruct (clear_clicked w) eqn:Hclear.
  { rewrite (clear_button_clicked _ _ Hclear) in Hrun.
    inversion Hrun; subst. right. left. done. }
  rewrite (clear_button_idle _ _ Hclear) in Hrun.
  unfold app_bind at 1 in Hrun. rewrite render_history_eq in Hrun.
  set (s1 := mkSessionState conv (chat_history (initialised s))) in *.
  destruct (user_question w) as [q|] eqn:Hq.
  2:{ rewrite (chat_input_idle _ _ _ Hq) in Hrun. inversion Hrun; subst.
      left. split; [reflexivity|discriminate]. }
  destruct (decide (q = "")) as [->|Hne].
  { unfold chat_input in Hrun. rewrite Hq in Hrun. simpl in Hrun.
    inversion Hrun; subst. left. split; [reflexivity|discriminate]. }
  destruct (chain_of s1) as [chain|] eqn:Hchain.
  2:{ rewrite (chat_input_not_ready _ _ _ _ Hq Hne Hchain) in Hrun.
      inversion Hrun; subst. left. split; [reflexivity|discriminate]. }
  rewrite (chat_input_turn _ _ _ _ _ Hq Hne Hchain) in Hrun.
  destruct (failure (rag_chain_stream ext chain (history_of s1) q)).
  - inversion Hrun; subst. left. split; [reflexivity|discriminate].
  - inversion Hrun; subst. right. right.
    split; [reflexivity|]. split; [reflexivity|]. eauto.
Qed.

Lemma main_no_button ext w s :
  process_clicked w = false -> clear_clicked w = false ->
  main ext w s =
  let '(s', evs, r) := chat_input ext w (initialised s) in
  (s', List.concat (List.map render_message (history_of (initialised s))) ++ evs,
   match r with Next _ => Finished | Stop o => o end).
Proof.
  intros Hp Hc. unfold main. rewrite (script_no_button _ _ _ Hp Hc).
  by destruct (chat_input ext w (initialised s)) as [[s' evs] r].
Qed.

Lemma reachable_greeting s :
  reachable s ->
  forall h, chat_history s = Some h -> exists rest, h = greeting :: rest.
Proof.
  induction 1 as [|ext w s Hs IH]; intros h Hh; [discriminate|].
  destruct (main ext w s) as [[s' evs] outcome] eqn:Hrun. simpl in Hh.
  assert (Hinit : exists rest, history_of (initialised s) = greeting :: rest).
  { unfold initialised, history_of. simpl.
    destruct (chat_history s) as [h0|]; [by apply IH|by exists []]. }
  destruct Hinit as [rest Hrest].
  destruct (main_history _ _ _ _ _ _ Hrun)
    as [[H _] | [(_ & _ & H) | (_ & _ & q & r & _ & H)]];
    rewrite H in Hh; inversion Hh; subst h.
  - by exists rest.
  - by exists [].
  - rewrite Hrest. by exists (rest ++ [Human q; AI r []]).
Qed.

End Runs.

(** C7: a run in which Clear Chat History is clicked ends at the
    [st.rerun()] of that branch, and it then leaves a history of exactly the
    greeting, whatever the session held before.  (Only an exception in the
    Process branch, which runs first, keeps a run from getting there.) *)
Theorem clear_resets_to_greeting {VectorStore} (ext : Services VectorStore)
    (w : Widgets) (s s' : SessionState VectorStore) (evs : list Event)
    (outcome : Outcome) :
  clear_clicked w = true ->
  main ext w s = (s', evs, outcome) ->
  (process_clicked w = false -> outcome = Rerun)
  /\ (outcome = Rerun -> chat_history s' = Some [greeting]).
Proof.
  intros Hclear Hrun. split.
  - intros Hp. unfold main, script in Hrun.
    unfold app_bind at 1 in Hrun. rewrite init_session_eq in Hrun.
    unfold app_bind at 1 in Hrun. rewrite (process_button_idle _ _ _ Hp) in Hrun.
    unfold app_bind at 1 in Hrun.
    rewrite (clear_button_clicked _ _ Hclear) in Hrun. by inversion Hrun.
  - intros ->.
    destruct (main_history _ _ _ _ _ _ Hrun)
      as [[_ H] | [(_ & _ & H) | (_ & H & _)]]; [done|done|congruence].
Qed.

Lemma clear_resets_to_greeting_witness :
  chat_history
    (main ex_services (mkWidgets [] false true (Some "What is X?")) ex_ready).1.1
  = Some [greeting].
Proof.
  eapply (clear_resets_to_greeting ex_services
            (mkWidgets [] false true (Some "What is X?")) ex_ready);
    reflexivity.
Defined.

(** C6, as the code has it: a question submitted while the session holds no
    chain (nothing was processed) calls no external service, retrieval
    included: the run shows
    the warning that asks to process documents first, ends normally, and
    leaves the history as it was. *)
Theorem question_without_index_warns {VectorStore} (ext : Services VectorStore)
    (w : Widgets) (s : SessionState VectorStore) (q : string) :
  process_clicked w = false -> clear_clicked w = false ->
  user_question w = Some q -> q <> "" -> chain_of s = None ->
  exists evs,
    main ext w s = (initialised s, evs, Finished)
    /\ Warning "Please upload and process your documents first." ∈ evs
    /\ Forall (fun ev => is_external_call ev = false) evs
    /\ queries evs = [].
Proof.
  intros Hp Hc Hq Hne Hchain. rewrite (main_no_button _ _ _ Hp Hc).
  rewrite (chat_input_not_ready _ _ _ _ Hq Hne); [|exact Hchain].
  eexists. split; [reflexivity|].
  pose proof (render_is_page_output (history_of (initialised s))) as Hren.
  split; [|split].
  - apply elem_of_app. right. left.
  - apply Forall_app. split; [exact Hren|]. by repeat constructor.
  - unfold queries. rewrite omap_app. simpl. rewrite app_nil_r.
    induction Hren as [|ev evs Hev _ IH]; [reflexivity|].
    simpl. destruct ev; try discriminate; exact IH.
Qed.

Lemma question_without_index_warns_witness :
  exists evs,
    main ex_services (ask "What is X?") ex_fresh = (initialised ex_fresh, evs, Finished)
    /\ Warning "Please upload and process your documents first." ∈ evs
    /\ Forall (fun ev => is_external_call ev = false) evs
    /\ queries evs = [].
Proof.
  apply (question_without_index_warns ex_services (ask "What is X?") ex_fresh
           "What is X?"); try reflexivity. discriminate.
Defined.

(** C2: when the stream of the chain ends in an exception, after any number
    of fragments, the run ends in that exception and the session state is
    the one the turn started from: no Human entry and no AI entry is
    appended.  More generally, no run that ends in an exception changes the
    history. *)
Theorem failed_stream_leaves_history {VectorStore} (ext : Services VectorStore)
    (w : Widgets) (s : SessionState VectorStore) (chain : RagChain VectorStore)
    (q : string) (e : Exception) :
  process_clicked w = false -> clear_clicked w = false ->
  user_question w = Some q -> q <> "" -> chain_of s = Some chain ->
  failure (rag_chain_stream ext chain (history_of (initialised s)) q) = Some e ->
  (exists evs, main ext w s = (initialised s, evs, Raised e))
  /\ (forall w' s' evs e',
        main ext w' s = (s', evs, Raised e') ->
        chat_history s' = chat_history (initialised s)).
Proof.
  intros Hp Hc Hq Hne Hchain Hfail. split.
  - rewrite (main_no_button _ _ _ Hp Hc).
    rewrite (chat_input_turn _ _ _ _ chain Hq Hne); [|exact Hchain].
    rewrite Hfail. eauto.
  - intros w' s' evs e' Hrun.
    destruct (main_history _ _ _ _ _ _ Hrun)
      as [[H _] | [(H & _) | (H & _)]]; [exact H|discriminate|discriminate].
Qed.

Lemma failed_stream_leaves_history_witness :
  (exists evs,
     main ex_failing (ask "What is X?") ex_ready
     = (initialised ex_ready, evs, Raised "GenerationError"))
  /\ (forall w' s' evs e',
        main ex_failing w' ex_ready = (s', evs, Raised e') ->
        chat_history s' = chat_history (initialised ex_ready)).
Proof.
  apply (failed_stream_leaves_history ex_failing (ask "What is X?") ex_ready
           (mkRagChain [mkDocument "x" "a.pdf" 1; mkDocument "y" "a.pdf" 4])
           "What is X?" "GenerationError"); try reflexivity. discriminate.
Defined.

(** C10: in every session state that runs of [main] can reach, the history
    starts with the greeting.  A run leaves the history as it found it,
    resets it (Clear Chat History), or appends a Human entry followed by an
    AI entry at its end (a turn that succeeded); a turn whose stream ends
    without exception does the latter; and a run in which only Process is
    clicked leaves the history as it was, however processing ends. *)
Theorem history_grows_by_turns {VectorStore} :
  (forall s : SessionState VectorStore,
     reachable s ->
     forall h, chat_history s = Some h -> exists rest, h = greeting :: rest)
  /\ (forall (ext : Services VectorStore) w s s' evs outcome,
        main ext w s = (s', evs, outcome) ->
        let h := history_of (initialised s) in
        chat_history s' = Some h
        \/ (clear_clicked w = true /\ chat_history s' = Some [greeting])
        \/ (exists q response,
              user_question w = Some q
              /\ chat_history s' = Some (h ++ [Human q; AI response []])))
  /\ (forall (ext : Services VectorStore) w s chain q,
        process_clicked w = false -> clear_clicked w = false ->
        user_question w = Some q -> q <> "" -> chain_of s = Some chain ->
        let h := history_of (initialised s) in
        let stream := rag_chain_stream ext chain h q in
        failure stream = None ->
        exists evs,
          main ext w s
          = (mkSessionState (Some (Some chain))
               (Some (h ++ [Human q; AI (Py.join "" (answers (chunks stream))) []])),
             evs, Rerun))
  /\ (forall (ext : Services VectorStore) w s s' evs outcome,
        clear_clicked w = false -> user_question w = None ->
        main ext w s = (s', evs, outcome) ->
        chat_history s' = chat_history (initialised s)).
Proof.
  split; [exact reachable_greeting|]. split; [|split].
  - intros ext w s s' evs outcome Hrun h.
    destruct (main_history _ _ _ _ _ _ Hrun)
      as [[H _] | [(_ & Hc & H) | (_ & _ & H)]]; eauto.
  - intros ext w s chain q Hp Hc Hq Hne Hchain h stream Hok.
    rewrite (main_no_button _ _ _ Hp Hc).
    rewrite (chat_input_turn _ _ _ _ chain Hq Hne); [|exact Hchain].
    fold h. fold stream. rewrite Hok. simpl. rewrite Hchain. eauto.
  - intros ext w s s' evs outcome Hc Hq Hrun.
    destruct (main_history _ _ _ _ _ _ Hrun)
      as [[H _] | [(_ & Hc' & _) | (_ & _ & q & r & Hq' & _)]];
      [exact H|congruence|congruence].
Qed.

Lemma history_grows_by_turns_witness :
  exists evs,
    main ex_services (ask "What is X?") ex_ready
    = (mkSessionState
         (Some (Some (mkRagChain [mkDocument "x" "a.pdf" 1; mkDocument "y" "a.pdf" 4])))
         (Some ([greeting] ++ [Human "What is X?"; AI "Hello world" []])),
       evs, Rerun).
Proof.
  destruct (@history_grows_by_turns (list Document)) as (_ & _ & Hturn & _).
  apply (Hturn ex_services (ask "What is X?") ex_ready
           (mkRagChain [mkDocument "x" "a.pdf" 1; mkDocument "y" "a.pdf" 4])
           "What is X?"); try reflexivity. discriminate.
Defined.

Section Calls.

Context {VectorStore : Type} {X : Type}.
Implicit Types (ext : Services VectorStore) (s : SessionState VectorStore)
  (w : Widgets).

(** A view of the events that looks at the chain's calls only. *)
Variable view : Event -> option X.
Hypothesis view_chain : forall ev, is_chain_call ev = false -> view ev = None.

Lemma view_quiet evs :
  Forall (fun ev => is_chain_call ev = false) evs -> omap view evs = [].
Proof.
  induction 1 as [|ev evs Hev _ IH]; [reflexivity|].
  simpl. by rewrite (view_chain _ Hev).
Qed.

Lemma render_quiet (h : list Message) :
  Forall (fun ev => is_chain_call ev = false)
    (List.concat (List.map render_message h)).
Proof.
  eapply Forall_impl; [apply render_is_page_output|].
  intros ev. by destruct ev.
Qed.

Lemma process_button_quiet ext w s :
  Forall (fun ev => is_chain_call ev = false) (process_button ext w s).1.2.
Proof.
  unfold process_button.
  destruct (process_clicked w); simpl; [|constructor].
  destruct (pdf_docs w) as [|pdf pdfs]; [by repeat constructor|].
  unfold app_bind, lift, get, put, emit. simpl.
  destruct (get_pdf_text_and_metadata (pdf :: pdfs)) as [documents|e];
    [|constructor].
  destruct (get_text_chunks documents) as [text_chunks|e]; [|constructor].
  simpl. destruct (get_vectorstore ext text_chunks) as [vs|e];
    by repeat constructor.
Qed.

(** The chain's calls in a run: none, or those of one stream of a chain on
    the history the run started from and the question submitted. *)
Lemma main_calls ext w s s' evs outcome :
  main ext w s = (s', evs, outcome) ->
  omap view evs = []
  \/ exists q chain,
       user_question w = Some q /\ q <> ""
       /\ omap view evs
          = omap view (effects (rag_chain_stream ext chain
                                  (history_of (initialised s)) q)).
Proof.
  intros Hrun. unfold main, script in Hrun.
  unfold app_bind at 1 in Hrun. rewrite init_session_eq in Hrun.
  unfold app_bind at 1 in Hrun.
  pose proof (process_button_quiet ext w (initialised s)) as Hquiet.
  destruct (process_button_history ext w (initialised s))
    as (conv & evs1 & r1 & Hpb & Hr1).
  rewrite Hpb in Hrun, Hquiet. clear Hpb. simpl in Hquiet.
  apply view_quiet in Hquiet.
  destruct Hr1 as [-> | [e ->]].
  2:{ inversion Hrun; subst. left. exact Hquiet. }
  unfold app_bind at 1 in Hrun.
  destruct (clear_clicked w) eqn:Hclear.
  { rewrite (clear_button_clicked _ _ Hclear) in Hrun.
    inversion Hrun; subst. left. by rewrite ?omap_app, Hquiet. }
  rewrite (clear_button_idle _ _ Hclear) in Hrun.
  unfold app_bind at 1 in Hrun. rewrite render_history_eq in Hrun.
  set (s1 := mkSessionState conv (chat_history (initialised s))) in *.
  pose proof (view_quiet _ (render_quiet (history_of s1))) as Hren.
  destruct (user_question w) as [q|] eqn:Hq.
  2:{ rewrite (chat_input_idle _ _ _ Hq) in Hrun. inversion Hrun; subst.
      left. by rewrite ?omap_app, Hquiet, Hren. }
  destruct (decide (q = "")) as [->|Hne].
  { unfold chat_input in Hrun. rewrite Hq in Hrun. simpl in Hrun.
    inversion Hrun; subst. left. by rewrite ?omap_app, Hquiet, Hren. }
  destruct (chain_of s1) as [chain|] eqn:Hchain.
  2:{ rewrite (chat_input_not_ready _ _ _ _ Hq Hne Hchain) in Hrun.
      inversion Hrun; subst. left. rewrite !omap_app, Hquiet, Hren. simpl.
      by rewrite view_chain. }
  rewrite (chat_input_turn _ _ _ _ _ Hq Hne Hchain) in Hrun.
  right. exists q, chain. split; [reflexivity|]. split; [exact Hne|].
  assert (Hw : forall frags, omap view (List.map WriteStream frags) = []).
  { intros frags. apply view_quiet. apply Forall_forall. intros ev Hev.
    apply list_elem_of_In, in_map_iff in Hev as (x & <- & _). reflexivity. }
  change (history_of s1) with (history_of (initialised s)) in *.
  destruct (failure (rag_chain_stream ext chain (history_of (initialised s)) q));
    inversion Hrun; subst; rewrite !omap_app, Hquiet, Hren; simpl;
    rewrite view_chain by reflexivity; rewrite omap_app, Hw;
    by rewrite app_nil_r.
Qed.

End Calls.

Section ChainCalls.

Context {VectorStore : Type}.
Implicit Types (ext : Services VectorStore) (s : SessionState VectorStore)
  (chain : RagChain VectorStore) (w : Widgets).

Lemma chain_calls_cons ev evs :
  chain_calls (ev :: evs)
  = if is_chain_call ev then ev :: chain_calls evs else chain_calls evs.
Proof. unfold chain_calls. simpl. by destruct (is_chain_call ev). Qed.

Lemma chain_calls_id evs :
  Forall (fun ev => is_chain_call ev = true) evs -> chain_calls evs = evs.
Proof.
  induction 1 as [|ev evs Hev _ IH]; [reflexivity|].
  by rewrite chain_calls_cons, Hev, IH.
Qed.

Lemma retriever_events ext chain h q :
  Forall (fun ev => is_chain_call ev = true) (history_aware_retriever ext chain h q).1.
Proof.
  unfold history_aware_retriever. destruct h; [by repeat constructor|].
  destruct (llm_invoke ext _); by repeat constructor.
Qed.

Lemma stream_events ext chain h q :
  Forall (fun ev => is_chain_call ev = true) (effects (rag_chain_stream ext chain h q)).
Proof.
  unfold rag_chain_stream.
  pose proof (retriever_events ext chain h q) as H.
  destruct (history_aware_retriever ext chain h q) as [calls [context|e]];
    simpl in *; [|exact H].
  destruct (llm_stream ext _). simpl. apply Forall_app. by repeat constructor.
Qed.

(** The chain's calls in a run, in order: none, or the effects of one
    stream on the history the run started from. *)
Lemma main_chain_calls ext w s s' evs outcome :
  main ext w s = (s', evs, outcome) ->
  chain_calls evs = []
  \/ exists q chain,
       user_question w = Some q /\ q <> ""
       /\ chain_calls evs
          = effects (rag_chain_stream ext chain (history_of (initialised s)) q).
Proof.
  intros Hrun.
  assert (Hview : forall ev, is_chain_call ev = false ->
                  (if is_chain_call ev then Some ev else None) = None).
  { by intros ev ->. }
  destruct (main_calls _ Hview _ _ _ _ _ _ Hrun)
    as [H|(q & chain & Hq & Hne & H)].
  - by left.
  - right. exists q, chain. split; [done|]. split; [done|].
    etrans; [exact H|]. apply chain_calls_id, stream_events.
Qed.

Lemma view_chain_calls {X} (view : Event -> option X) evs :
  (forall ev, is_chain_call ev = false -> view ev = None) ->
  omap view evs = omap view (chain_calls evs).
Proof.
  intros Hview. induction evs as [|ev evs IH]; [reflexivity|].
  rewrite chain_calls_cons.
  change (omap view (ev :: evs))
    with (match view ev with Some y => y :: omap view evs | None => omap view evs end).
  rewrite IH. destruct (is_chain_call ev) eqn:E; [reflexivity|].
  by rewrite (Hview _ E).
Qed.

Lemma queries_chain_calls evs : queries evs = queries (chain_calls evs).
Proof. apply view_chain_calls. by intros []. Qed.

Lemma rewrite_calls_chain_calls evs :
  rewrite_calls evs = rewrite_calls (chain_calls evs).
Proof. apply view_chain_calls. by intros []. Qed.

Lemma answer_calls_chain_calls evs :
  answer_calls evs = answer_calls (chain_calls evs).
Proof. apply view_chain_calls. by intros []. Qed.


Lemma retriever_with_history ext chain m h q :
  let p := contextualize_q_prompt (str_of_history ext (m :: h)) q in
  history_aware_retriever ext chain (m :: h) q
  = match llm_invoke ext p with
    | Ok query => ([LlmInvoke p; RetrieverInvoke query],
                   retriever_invoke ext (retriever chain) query)
    | Raise e => ([LlmInvoke p], Raise e)
    end.
Proof. simpl. by destruct (llm_invoke ext _). Qed.

(** The calls of a stream on a history that is not empty. *)
Lemma stream_calls_with_history ext chain m h q :
  let p := contextualize_q_prompt (str_of_history ext (m :: h)) q in
  let evs := effects (rag_chain_stream ext chain (m :: h) q) in
  rewrite_calls evs = [p]
  /\ queries evs = match llm_invoke ext p with
                   | Ok query => [query]
                   | Raise _ => []
                   end.
Proof.
  intros p evs. subst evs. unfold rag_chain_stream.
  rewrite retriever_with_history. fold p.
  destruct (llm_invoke ext p) as [query|e]; [|by split].
  destruct (retriever_invoke ext (retriever chain) query) as [context|e];
    [|by split].
  destruct (llm_stream ext _). by split.
Qed.


End ChainCalls.



(** C3 as stated fails: on the first turn after [ex_pdf] is processed in a
    fresh session, when the history holds the greeting and no Human or AI
    entry, the rewriting model is called and the retriever is given its
    output, not the question. *)
Lemma first_turn_is_rewritten :
  (main ex_services (mkWidgets [ex_pdf] true false None) ex_fresh).1.1 = ex_ready
  /\ chat_history ex_ready = Some [greeting]
  /\ length (rewrite_calls (main ex_services (ask "What is X?") ex_ready).1.2) = 1%nat
  /\ queries (main ex_services (ask "What is X?") ex_ready).1.2 = ["REWRITTEN"]
  /\ "REWRITTEN" <> "What is X?".
Proof. repeat split; try reflexivity. discriminate. Qed.

(** C1 fails on the code: in the first turn after [ex_pdf] is processed in a
    fresh session, a turn that succeeds, the chunks handed to answer
    synthesis come from pages 1 and 4 of [a.pdf], and the AI entry that
    [main] appends carries an empty list: it cites nothing. *)
Theorem ai_turn_cites_nothing :
  let chain := mkRagChain [mkDocument "x" "a.pdf" 1; mkDocument "y" "a.pdf" 4] in
  let run := main ex_services (ask "What is X?") ex_ready in
  let stream := rag_chain_stream ex_services chain [greeting] "What is X?" in
  (main ex_services (mkWidgets [ex_pdf] true false None) ex_fresh).1.1 = ex_ready
  /\ run.1.1 = mkSessionState (Some (Some chain))
              (Some [greeting; Human "What is X?"; AI "Hello world" []])
  /\ run.2 = Rerun
  /\ context_of stream = [mkDocument "x" "a.pdf" 1; mkDocument "y" "a.pdf" 4]
  /\ ("a.pdf", 1%nat) ∈ cited (context_of stream)
  /\ turn_sources (AI "Hello world" []) = ∅
  /\ turn_sources (AI "Hello world" []) <> cited (context_of stream).
Proof.
  intros chain run stream.
  assert (Hctx : context_of stream
                 = [mkDocument "x" "a.pdf" 1; mkDocument "y" "a.pdf" 4])
    by reflexivity.
  split; [reflexivity|].
  split; [reflexivity|]. split; [reflexivity|]. split; [exact Hctx|].
  rewrite Hctx. unfold turn_sources, cited. simpl.
  split; [set_solver|]. split; [reflexivity|].
  intros Heq. assert (H : ("a.pdf", 1%nat) ∈ (∅ : gset (string * nat))).
  { rewrite Heq. set_solver. }
  set_solver.
Qed.

(** ** The chunker *)

Section Strings.

Lemma len_nonneg s : 0 <= Py.len s.
Proof. unfold Py.len. lia. Qed.

Lemma len_append s t : Py.len (s +:+ t) = Py.len s + Py.len t.
Proof.
  unfold Py.len. induction s as [|c s IH].
  { change ("" +:+ t) with t. simpl. lia. }
  change (String.length (String c s +:+ t)) with (S (String.length (s +:+ t))).
  change (String.length (String c s)) with (S (String.length s)). lia.
Qed.

Lemma len_empty_iff s : Py.len s = 0 <-> s = "".
Proof. unfold Py.len. destruct s; simpl; split; intros H; (done || lia). Qed.








End Strings.

Section MergeSplits.

Import CharacterTextSplitter.

Lemma joined_len_nil : joined_len [] = 0.
Proof. reflexivity. Qed.

Lemma joined_len_cons x l :
  joined_len (x :: l) = Py.len x + (if nonempty l then 1 + joined_len l else 0).
Proof.
  unfold joined_len. destruct l as [|y l]; simpl; [lia|].
  rewrite !len_append. change (Py.len separator) with 1. lia.
Qed.

Lemma joined_len_nonneg l : 0 <= joined_len l.
Proof. apply len_nonneg. Qed.

Lemma joined_len_snoc l d :
  joined_len (l ++ [d]) = joined_len l + Py.len d + sep_if nonempty l.
Proof.
  induction l as [|x l IH].
  { change ([] ++ [d]) with [d]. rewrite joined_len_cons, joined_len_nil.
    unfold sep_if. simpl. lia. }
  change ((x :: l) ++ [d]) with (x :: (l ++ [d])).
  rewrite !joined_len_cons, IH. unfold sep_if.
  destruct l; simpl; change (length_function separator) with 1;
    rewrite ?joined_len_nil; lia.
Qed.

Lemma several_snoc {A} (l : list A) d :
  sep_if several (l ++ [d]) = sep_if nonempty l.
Proof. by destruct l as [|x [|y l]]. Qed.

Lemma pop_while_eq _len current_doc total :
  pop_while _len current_doc total =
  if (chunk_overlap <? total) || (overflows total _len current_doc && (0 <? total))
  then match current_doc with
       | [] => Raise "IndexError"
       | d0 :: rest =>
           pop_while _len rest
             (total - (length_function d0 + sep_if several current_doc))
       end
  else Ok (current_doc, total).
Proof. by destruct current_doc. Qed.

(** The inner loop never indexes an empty list: it stops on a suffix of
    the lines that is short enough to be carried over, and that leaves
    room for the next line unless it is empty. *)
Lemma pop_while_spec _len current_doc :
  Forall (fun line => 0 < Py.len line) current_doc ->
  exists k,
    let kept := drop k current_doc in
    pop_while _len current_doc (joined_len current_doc)
    = Ok (kept, joined_len kept)
    /\ joined_len kept <= chunk_overlap
    /\ (overflows (joined_len kept) _len kept = false \/ kept = []).
Proof.
  induction 1 as [|d0 rest Hd0 Hrest IH].
  - exists 0%nat. simpl drop. cbv zeta. rewrite joined_len_nil, pop_while_eq.
    change (0 <? 0) with false. rewrite andb_false_r.
    change (chunk_overlap <? 0) with false. cbn [orb].
    split; [reflexivity|]. split; [unfold chunk_overlap; lia|by right].
  - rewrite pop_while_eq.
    destruct ((chunk_overlap <? joined_len (d0 :: rest))
              || (overflows (joined_len (d0 :: rest)) _len (d0 :: rest)
                  && (0 <? joined_len (d0 :: rest)))) eqn:Hcond.
    + destruct IH as (k & Hpop & Hshort & Hroom).
      exists (S k). simpl drop.
      replace (joined_len (d0 :: rest)
               - (length_function d0 + sep_if several (d0 :: rest)))
        with (joined_len rest); [done|].
      rewrite joined_len_cons. unfold sep_if, length_function.
      destruct rest; simpl; change (Py.len separator) with 1;
        rewrite ?joined_len_nil; lia.
    + exists 0%nat. simpl drop. apply orb_false_iff in Hcond as [Hshort Hroom].
      split; [reflexivity|]. split; [lia|]. left.
      apply andb_false_iff in Hroom as [Hroom|Hpos]; [exact Hroom|].
      pose proof (joined_len_cons d0 rest). pose proof (joined_len_nonneg rest).
      destruct (nonempty rest); lia.
Qed.

Lemma suffix_is_drop (l whole : list string) :
  l `suffix_of` whole -> l = drop (length whole - length l) whole.
Proof.
  intros [k ->]. rewrite length_app.
  replace (length k + length l - length l)%nat with (length k) by lia.
  by rewrite drop_app_length.
Qed.

(** What the inner loop keeps is the longest suffix of the lines that is
    short enough to be carried over and leaves room for the next line:
    every longer suffix is too long for one or the other. *)
Lemma pop_while_longest _len current_doc :
  Forall (fun line => 0 < Py.len line) current_doc ->
  exists k,
    (k <= length current_doc)%nat
    /\ pop_while _len current_doc (joined_len current_doc)
       = Ok (drop k current_doc, joined_len (drop k current_doc))
    /\ joined_len (drop k current_doc) <= chunk_overlap
    /\ (overflows (joined_len (drop k current_doc)) _len (drop k current_doc) = false
        \/ drop k current_doc = [])
    /\ forall k', (k' < k)%nat ->
         chunk_overlap < joined_len (drop k' current_doc)
         \/ chunk_size < joined_len (drop k' current_doc) + _len + 1.
Proof.
  induction 1 as [|d0 rest Hd0 Hrest IH].
  - exists 0%nat. simpl drop. rewrite joined_len_nil, pop_while_eq.
    change (0 <? 0) with false. rewrite andb_false_r.
    change (chunk_overlap <? 0) with false. cbn [orb].
    split; [simpl; lia|]. split; [reflexivity|].
    split; [unfold chunk_overlap; lia|]. split; [by right|]. intros k' Hk'. lia.
  - rewrite pop_while_eq.
    destruct ((chunk_overlap <? joined_len (d0 :: rest))
              || (overflows (joined_len (d0 :: rest)) _len (d0 :: rest)
                  && (0 <? joined_len (d0 :: rest)))) eqn:Hcond.
    + destruct IH as (k & Hk & Hpop & Hshort & Hroom & Hlong).
      exists (S k). simpl drop.
      replace (joined_len (d0 :: rest)
               - (length_function d0 + sep_if several (d0 :: rest)))
        with (joined_len rest).
      2:{ rewrite joined_len_cons. unfold sep_if, length_function.
          destruct rest; simpl; change (Py.len separator) with 1;
            rewrite ?joined_len_nil; lia. }
      split; [simpl; lia|]. split; [exact Hpop|]. split; [exact Hshort|].
      split; [exact Hroom|]. intros [|k'] Hk'.
      * simpl drop. apply orb_true_iff in Hcond as [Hcond|Hcond].
        -- left. by apply Z.ltb_lt.
        -- right. apply andb_true_iff in Hcond as [Hcond _].
           unfold overflows, sep_if in Hcond. simpl nonempty in Hcond.
           cbv iota in Hcond. change (length_function separator) with 1 in Hcond.
           by apply Z.ltb_lt.
      * simpl drop. apply Hlong. lia.
    + exists 0%nat. simpl drop. apply orb_false_iff in Hcond as [Hshort Hroom].
      split; [lia|]. split; [reflexivity|]. split; [lia|]. split.
      * left. apply andb_false_iff in Hroom as [Hroom|Hpos]; [exact Hroom|].
        pose proof (joined_len_cons d0 rest). pose proof (joined_len_nonneg rest).
        destruct (nonempty rest); lia.
      * intros k' Hk'. lia.
Qed.

Lemma omap_chunk_cons g groups :
  omap chunk_of (g :: groups)
  = append_doc [] (chunk_of g) ++ omap chunk_of groups.
Proof. simpl. by destruct (chunk_of g). Qed.

Lemma append_doc_app docs doc : append_doc docs doc = docs ++ append_doc [] doc.
Proof. destruct doc; simpl; [done|by rewrite app_nil_r]. Qed.

(** The outer loop, from any state it can be in: [carried ++ fresh] is
    the chunk in the making and [total] its joined length. *)
Lemma merge_loop_spec splits : forall docs carried fresh,
  Forall (fun line => 0 < Py.len line) splits ->
  Forall (fun line => 0 < Py.len line) (carried ++ fresh) ->
  fits (carried, fresh) ->
  exists fresh' rest,
    merge_loop splits docs (carried ++ fresh) (joined_len (carried ++ fresh))
    = Ok (docs ++ omap chunk_of ((carried, fresh ++ fresh') :: rest))
    /\ fresh' ++ List.concat (List.map snd rest) = splits
    /\ carried_from (carried ++ fresh ++ fresh') rest
    /\ Forall fits ((carried, fresh ++ fresh') :: rest).
Proof.
  induction splits as [|d splits IH]; intros docs carried fresh Hsplits Hcur Hfits.
  - exists [], []. rewrite app_nil_r. simpl merge_loop.
    rewrite omap_chunk_cons, app_nil_r. unfold chunk_of, group_lines. simpl.
    split; [by rewrite append_doc_app|]. split; [done|]. split; [done|].
    by constructor.
  - inversion Hsplits as [|? ? Hd Hsplits']; subst.
    set (current_doc := carried ++ fresh) in *.
    cbn [merge_loop].
    destruct (overflows (joined_len current_doc) (length_function d) current_doc
              && nonempty current_doc) eqn:Hover.
    + (* the chunk in the making is closed and a new one starts *)
      apply andb_true_iff in Hover as [Hover Hne].
      destruct (pop_while_longest (length_function d) current_doc Hcur)
        as (k & Hk & Hpop & Hshort & Hroom & Hlong).
      rewrite Hpop. cbn [bind].
      set (kept := drop k current_doc) in *.
      assert (Hkept : Forall (fun line => 0 < Py.len line) (kept ++ [d])).
      { apply Forall_app. split; [by apply Forall_drop|by constructor]. }
      assert (Hfits' : fits (kept, [d])).
      { unfold fits, group_lines. simpl. rewrite joined_len_snoc.
        destruct Hroom as [Hroom|Hnil].
        - left. unfold overflows in Hroom. unfold length_function in *. lia.
        - right. exists d. by rewrite Hnil. }
      destruct (IH (append_doc docs (join_docs current_doc)) kept [d]
                  Hsplits' Hkept Hfits')
        as (fresh' & rest & Hrun & Hcover & Hcarry & Hall).
      rewrite joined_len_snoc in Hrun. rewrite several_snoc.
      replace (joined_len kept + (length_function d + sep_if nonempty kept))
        with (joined_len kept + Py.len d + sep_if nonempty kept)
        by (unfold length_function; lia).
      rewrite Hrun.
      exists [], ((kept, [d] ++ fresh') :: rest). rewrite !app_nil_r.
      split; [|split; [|split]].
      * rewrite (omap_chunk_cons (carried, fresh)), app_assoc.
        by rewrite <- (append_doc_app docs).
      * simpl. by rewrite <- Hcover.
      * cbn [carried_from fst snd]. fold current_doc.
        split; [apply suffix_drop|]. split; [exact Hshort|].
        split; [|exact Hcarry].
        exists d, fresh'. split; [reflexivity|].
        assert (Hsep : sep_if nonempty current_doc = 1).
        { unfold sep_if. by rewrite Hne. }
        split; [|split].
        -- unfold overflows in Hover. apply Z.ltb_lt in Hover.
           unfold length_function in Hover. lia.
        -- destruct Hroom as [Hroom|Hnil]; [|by left].
           destruct kept as [|x kept'] eqn:Ekept; [by left|]. right.
           unfold overflows, sep_if in Hroom. simpl nonempty in Hroom.
           cbv iota in Hroom. change (length_function separator) with 1 in Hroom.
           apply Z.ltb_ge in Hroom. unfold length_function in Hroom. lia.
        -- intros longer Hsuffix Hlonger.
           rewrite (suffix_is_drop longer current_doc Hsuffix).
           apply suffix_length in Hsuffix.
           unfold kept in Hlonger. rewrite length_drop in Hlonger.
           unfold length_function in Hlong. apply Hlong. lia.
      * constructor; [exact Hfits|exact Hall].
    + (* the line goes into the chunk in the making *)
      cbn [bind].
      assert (Hcur' : Forall (fun line => 0 < Py.len line)
                        (carried ++ fresh ++ [d])).
      { rewrite app_assoc. apply Forall_app. split; [done|by constructor]. }
      assert (Hfits' : fits (carried, fresh ++ [d])).
      { unfold fits, group_lines. simpl. rewrite app_assoc. fold current_doc.
        rewrite joined_len_snoc.
        apply andb_false_iff in Hover as [Hover|Hempty].
        - left. unfold overflows in Hover. unfold length_function in *. lia.
        - right. exists d. by destruct current_doc. }
      destruct (IH docs carried (fresh ++ [d]) Hsplits' Hcur' Hfits')
        as (fresh' & rest & Hrun & Hcover & Hcarry & Hall).
      rewrite (app_assoc carried fresh [d]) in Hrun. fold current_doc in Hrun.
      rewrite joined_len_snoc in Hrun. rewrite several_snoc.
      replace (joined_len current_doc
               + (length_function d + sep_if nonempty current_doc))
        with (joined_len current_doc + Py.len d + sep_if nonempty current_doc)
        by (unfold length_function; lia).
      rewrite Hrun. exists (d :: fresh'), rest.
      rewrite <- !app_assoc in *. simpl in *.
      split; [done|]. split; [by rewrite Hcover|]. split; done.
Qed.

End MergeSplits.

Section SplitText.

Import CharacterTextSplitter.

Lemma split_lines_nonempty text :
  Forall (fun line => 0 < Py.len line) (split_text_with_regex text).
Proof.
  unfold split_text_with_regex. apply Forall_forall. intros line Hin.
  apply list_elem_of_In, filter_In in Hin as [_ Hline].
  destruct line; [discriminate|]. unfold Py.len. simpl. lia.
Qed.


(** [_merge_splits] returns, and what it returns packs the lines. *)
Lemma merge_splits_packing lines :
  Forall (fun line => 0 < Py.len line) lines ->
  exists page_chunks, merge_splits lines = Ok page_chunks /\ packing lines page_chunks.
Proof.
  intros Hlines.
  destruct (merge_loop_spec lines [] [] [] Hlines) as
    (fresh & rest & Hrun & Hcover & Hcarry & Hall).
  { constructor. }
  { left. unfold group_lines. simpl. rewrite joined_len_nil.
    unfold chunk_size. lia. }
  simpl in Hrun, Hcarry. exists (omap chunk_of (([], fresh) :: rest)).
  split; [exact Hrun|]. exists fresh, rest.
  split; [reflexivity|]. split; [exact Hcover|]. split; [exact Hcarry|exact Hall].
Qed.

(** The lines of the groups are lines of the page. *)
Lemma carried_lines (P : string -> Prop) groups : forall previous,
  carried_from previous groups ->
  Forall P previous ->
  Forall P (List.concat (List.map snd groups)) ->
  Forall (fun g => Forall P (group_lines g)) groups.
Proof.
  induction groups as [|[carried fresh] groups IH]; intros previous Hcarry Hprev Hnew;
    [constructor|].
  destruct Hcarry as ([k ->] & _ & _ & Hcarry). simpl in *.
  apply Forall_app in Hprev as [_ Hcarried]. apply Forall_app in Hnew as [Hfresh Hnew].
  assert (Hgroup : Forall P (carried ++ fresh)) by (by apply Forall_app).
  constructor; [exact Hgroup|]. by apply (IH (carried ++ fresh)).
Qed.



End SplitText.



(** * Further properties *)

(** ** The Process branch *)

Section Process.

Context {VectorStore : Type}.
Implicit Types (ext : Services VectorStore) (s : SessionState VectorStore)
  (w : Widgets).

(** The Process branch on some files, by what [index_of] gives. *)
Lemma process_button_files ext w s :
  process_clicked w = true -> pdf_docs w <> [] ->
  match index_of ext (pdf_docs w) with
  | Ok vectorstore =>
      exists text_chunks,
        process_button ext w s
        = (mkSessionState (Some (Some (get_conversation_rag_chain vectorstore)))
             (chat_history s),
           [EmbedDocuments text_chunks; Success "Processing complete!"], Next tt)
  | Raise e =>
      exists evs,
        process_button ext w s = (s, evs, Stop (Raised e))
        /\ Forall (fun ev => exists c, ev = EmbedDocuments c) evs
  end.
Proof.
  intros Hp Hfiles. unfold process_button, index_of. rewrite Hp. simpl.
  destruct (pdf_docs w) as [|pdf pdfs]; [done|].
  unfold app_bind, lift, get, put, emit. simpl.
  destruct (get_pdf_text_and_metadata (pdf :: pdfs)) as [documents|e]; simpl;
    [|by exists []].
  destruct (get_text_chunks documents) as [text_chunks|e]; simpl; [|by exists []].
  destruct (get_vectorstore ext text_chunks) as [vs|e]; simpl.
  - exists text_chunks. by destruct s.
  - exists [EmbedDocuments text_chunks]. split; [by destruct s|].
    repeat constructor. by exists text_chunks.
Qed.

(** What follows the Process branch never touches the chain. *)
Lemma main_conversation ext w s s' evs outcome :
  main ext w s = (s', evs, outcome) ->
  conversation s' = conversation (process_button ext w (initialised s)).1.1.
Proof.
  intros Hrun. unfold main, script in Hrun.
  unfold app_bind at 1 in Hrun. rewrite init_session_eq in Hrun.
  unfold app_bind at 1 in Hrun.
  destruct (process_button ext w (initialised s)) as [[s1 evs1] r1]. simpl.
  destruct r1 as [[]|o]; [|by inversion Hrun].
  unfold app_bind at 1 in Hrun.
  destruct (clear_clicked w) eqn:Hclear.
  { rewrite (clear_button_clicked _ _ Hclear) in Hrun. by inversion Hrun. }
  rewrite (clear_button_idle _ _ Hclear) in Hrun.
  unfold app_bind at 1 in Hrun. rewrite render_history_eq in Hrun.
  destruct (user_question w) as [q|] eqn:Hq.
  2:{ rewrite (chat_input_idle _ _ _ Hq) in Hrun. by inversion Hrun. }
  destruct (decide (q = "")) as [->|Hne].
  { unfold chat_input in Hrun. rewrite Hq in Hrun. simpl in Hrun.
    by inversion Hrun. }
  destruct (chain_of s1) as [chain|] eqn:Hchain.
  2:{ rewrite (chat_input_not_ready _ _ _ _ Hq Hne Hchain) in Hrun.
      by inversion Hrun. }
  rewrite (chat_input_turn _ _ _ _ _ Hq Hne Hchain) in Hrun.
  destruct (failure (rag_chain_stream ext chain (history_of s1) q));
    by inversion Hrun.
Qed.

End Process.

(** X1: Process clicked with no file uploaded only warns: nothing is
    extracted or embedded, the chain and the history stay as they
    were, and the run goes on to draw the history and ends normally. *)
Theorem process_without_files_warns {VectorStore} (ext : Services VectorStore)
    (w : Widgets) (s : SessionState VectorStore) :
  process_clicked w = true -> pdf_docs w = [] ->
  clear_clicked w = false -> user_question w = None ->
  main ext w s
  = (initialised s,
     Warning "Please upload at least one PDF file."
     :: List.concat (List.map render_message (history_of (initialised s))),
     Finished).
Proof.
  intros Hp Hfiles Hc Hq. unfold main, script.
  unfold app_bind at 1. rewrite init_session_eq.
  unfold app_bind at 1. unfold process_button. rewrite Hp, Hfiles. simpl.
  unfold app_bind at 1. rewrite (clear_button_idle _ _ Hc).
  unfold app_bind at 1. rewrite render_history_eq.
  rewrite (chat_input_idle _ _ _ Hq). simpl. by rewrite app_nil_r.
Qed.

Lemma process_without_files_warns_witness :
  main ex_services (mkWidgets [] true false None) ex_ready
  = (initialised ex_ready,
     Warning "Please upload at least one PDF file."
     :: List.concat (List.map render_message (history_of (initialised ex_ready))),
     Finished).
Proof.
  apply (process_without_files_warns ex_services (mkWidgets [] true false None)
           ex_ready); reflexivity.
Defined.

(** X2: when extraction, chunking or indexing raises, the run ends in that
    exception before anything else is done: the session keeps the chain and
    the history it had (a chain built earlier stays in use), and no success
    is announced. *)
Theorem failed_processing_keeps_session {VectorStore} (ext : Services VectorStore)
    (w : Widgets) (s : SessionState VectorStore) (e : Exception) :
  process_clicked w = true -> pdf_docs w <> [] ->
  index_of ext (pdf_docs w) = Raise e ->
  exists evs,
    main ext w s = (initialised s, evs, Raised e)
    /\ Forall (fun ev => exists c, ev = EmbedDocuments c) evs.
Proof.
  intros Hp Hfiles Hfail.
  pose proof (process_button_files ext w (initialised s) Hp Hfiles) as H.
  rewrite Hfail in H. destruct H as (evs & Hpb & Hevs).
  exists evs. split; [|exact Hevs].
  unfold main, script. unfold app_bind at 1. rewrite init_session_eq.
  unfold app_bind at 1. by rewrite Hpb.
Qed.

Lemma failed_processing_keeps_session_witness :
  exists evs,
    main ex_services
      (mkWidgets [mkUploadedFile "bad.pdf" (Raise "PdfReadError")] true false None)
      ex_ready
    = (initialised ex_ready, evs, Raised "PdfReadError")
    /\ Forall (fun ev => exists c, ev = EmbedDocuments c) evs.
Proof.
  apply (failed_processing_keeps_session ex_services
           (mkWidgets [mkUploadedFile "bad.pdf" (Raise "PdfReadError")] true false None)
           ex_ready "PdfReadError"); [reflexivity|discriminate|reflexivity].
Defined.

(** X3: the chain of the session changes in the Process branch only.  When
    Process is clicked on some files and extraction, chunking and indexing
    all return, the run leaves the chain built on the new store, whatever
    else happens in the run; in every other run the chain is the one the
    run started with: neither a question nor Clear Chat History touches
    it. *)
Theorem chain_changes_only_by_processing {VectorStore} (ext : Services VectorStore)
    (w : Widgets) (s s' : SessionState VectorStore) (evs : list Event)
    (outcome : Outcome) :
  main ext w s = (s', evs, outcome) ->
  (forall vectorstore,
     process_clicked w = true -> pdf_docs w <> [] ->
     index_of ext (pdf_docs w) = Ok vectorstore ->
     conversation s' = Some (Some (get_conversation_rag_chain vectorstore)))
  /\ (conversation s' = conversation (initialised s)
      \/ (process_clicked w = true /\ pdf_docs w <> []
          /\ exists vectorstore,
               index_of ext (pdf_docs w) = Ok vectorstore
               /\ conversation s'
                  = Some (Some (get_conversation_rag_chain vectorstore)))).
Proof.
  intros Hrun. rewrite (main_conversation _ _ _ _ _ _ Hrun). split.
  - intros vs Hp Hfiles Hok.
    pose proof (process_button_files ext w (initialised s) Hp Hfiles) as H.
    rewrite Hok in H. destruct H as (chunks & ->). reflexivity.
  - destruct (process_clicked w) eqn:Hp.
    2:{ left. by rewrite (process_button_idle _ _ _ Hp). }
    destruct (pdf_docs w) as [|pdf pdfs] eqn:Hfiles.
    { left. unfold process_button. by rewrite Hp, Hfiles. }
    assert (Hne : pdf_docs w <> []) by (by rewrite Hfiles).
    pose proof (process_button_files ext w (initialised s) Hp Hne) as H.
    rewrite <- Hfiles. destruct (index_of ext (pdf_docs w)) as [vs|e].
    + destruct H as (chunks & ->). right. split; [done|]. split; [done|].
      by exists vs.
    + destruct H as (evs' & -> & _). by left.
Qed.

Lemma chain_changes_only_by_processing_witness :
  conversation (main ex_services (mkWidgets [ex_pdf] true true None) ex_fresh).1.1
  = Some (Some (get_conversation_rag_chain
                  [mkDocument "x" "a.pdf" 1; mkDocument "y" "a.pdf" 4])).
Proof.
  destruct (chain_changes_only_by_processing ex_services
              (mkWidgets [ex_pdf] true true None) ex_fresh
              (main ex_services (mkWidgets [ex_pdf] true true None) ex_fresh).1.1
              (main ex_services (mkWidgets [ex_pdf] true true None) ex_fresh).1.2
              (main ex_services (mkWidgets [ex_pdf] true true None) ex_fresh).2
              eq_refl) as [H _].
  apply H; [reflexivity|discriminate|reflexivity].
Defined.

(** ** The history and how it is drawn *)

Lemma turns_snoc qa q r : turns (qa ++ [(q, r)]) = turns qa ++ [Human q; AI r []].
Proof.
  unfold turns. by rewrite map_app, concat_app.
Qed.

(** X4: in every session state that runs of [main] can reach, the history
    is the greeting followed by the turns that succeeded since the last
    reset, each a Human entry and then an AI entry whose source list is
    empty; no other System entry is ever there. *)
Theorem history_is_greeting_and_turns {VectorStore}
    (s : SessionState VectorStore) (h : list Message) :
  reachable s -> chat_history s = Some h ->
  exists qa, h = greeting :: turns qa.
Proof.
  intros Hs. revert h.
  induction Hs as [|ext w s Hs IH]; intros h Hh; [discriminate|].
  destruct (main ext w s) as [[s' evs] outcome] eqn:Hrun. simpl in Hh.
  assert (Hinit : exists qa, history_of (initialised s) = greeting :: turns qa).
  { unfold initialised, history_of. simpl.
    destruct (chat_history s) as [h0|]; [by apply IH|by exists []]. }
  destruct Hinit as [qa Hqa].
  destruct (main_history _ _ _ _ _ _ Hrun)
    as [[H _] | [(_ & _ & H) | (_ & _ & q & r & _ & H)]];
    rewrite H in Hh; inversion Hh; subst h.
  - by exists qa.
  - by exists [].
  - exists (qa ++ [(q, r)]). by rewrite Hqa, turns_snoc.
Qed.

Lemma history_is_greeting_and_turns_witness :
  exists qa,
    [greeting; Human "What is X?"; AI "Hello world" []] = greeting :: turns qa.
Proof.
  apply (history_is_greeting_and_turns
           (main ex_services (ask "What is X?")
              (main ex_services (mkWidgets [ex_pdf] true false None) ex_fresh).1.1).1.1).
  - apply reachable_run, reachable_run, reachable_start.
  - reflexivity.
Defined.

Lemma render_turns qa :
  List.concat (List.map render_message (turns qa)) = List.map bubble (turns qa).
Proof.
  induction qa as [|[q r] qa IH]; [reflexivity|].
  unfold turns in *. simpl. by rewrite IH.
Qed.

(** X5: in every reachable session state the history is drawn as one
    markdown per entry, in order, the greeting and the answers under the
    assistant and the questions under the user: no list of sources is ever
    drawn. *)
Theorem reachable_history_draws_no_sources {VectorStore}
    (s : SessionState VectorStore) (h : list Message) :
  reachable s -> chat_history s = Some h ->
  render_history s = (s, List.map bubble h, Next tt).
Proof.
  intros Hs Hh. rewrite render_history_eq.
  destruct (history_is_greeting_and_turns s h Hs Hh) as [qa ->].
  unfold history_of. rewrite Hh. simpl. by rewrite render_turns.
Qed.

Lemma reachable_history_draws_no_sources_witness :
  let s := (main ex_services (ask "What is X?") ex_ready).1.1 in
  render_history s
  = (s, List.map bubble [greeting; Human "What is X?"; AI "Hello world" []], Next tt).
Proof.
  apply (reachable_history_draws_no_sources
           (main ex_services (ask "What is X?")
              (main ex_services (mkWidgets [ex_pdf] true false None) ex_fresh).1.1).1.1).
  - apply reachable_run, reachable_run, reachable_start.
  - reflexivity.
Defined.

(** X6: an AI entry that carries chunks is drawn as its text, a rule, the
    heading, and one line per citation: every chunk's citation is listed,
    and chunks with the same source and page give one line. *)
Theorem sources_are_listed_once (text : string) (docs : list Document) :
  docs <> [] ->
  exists lines,
    render_message (AI text docs)
    = Markdown "assistant" text :: Markdown "assistant" "---"
      :: Markdown "assistant" "**Sources:**"
      :: List.map (fun line => Markdown "assistant" ("- " +:+ line)) lines
    /\ NoDup lines
    /\ forall line, line ∈ lines <-> exists doc, doc ∈ docs /\ line = citation doc.
Proof.
  intros Hdocs. exists (elements (source_lines docs)).
  split; [by destruct docs|]. split; [apply NoDup_elements|].
  intros line. rewrite elem_of_elements. unfold source_lines.
  rewrite elem_of_list_to_set.
  change (List.map ?f docs) with (f <$> docs). rewrite list_elem_of_fmap.
  split; intros (doc & H1 & H2); exists doc; by split.
Qed.

Lemma sources_are_listed_once_witness :
  exists lines,
    render_message
      (AI "t" [mkDocument "x" "a.pdf" 1; mkDocument "y" "a.pdf" 4; mkDocument "z" "a.pdf" 4])
    = Markdown "assistant" "t" :: Markdown "assistant" "---"
      :: Markdown "assistant" "**Sources:**"
      :: List.map (fun line => Markdown "assistant" ("- " +:+ line)) lines
    /\ NoDup lines
    /\ forall line,
         line ∈ lines <->
         exists doc,
           doc ∈ [mkDocument "x" "a.pdf" 1; mkDocument "y" "a.pdf" 4;
                  mkDocument "z" "a.pdf" 4]
           /\ line = citation doc.
Proof.
  apply (sources_are_listed_once "t"
           [mkDocument "x" "a.pdf" 1; mkDocument "y" "a.pdf" 4; mkDocument "z" "a.pdf" 4]).
  discriminate.
Defined.

(** ** Turns *)

Section Turns.

Context {VectorStore : Type}.
Implicit Types (ext : Services VectorStore) (s : SessionState VectorStore)
  (chain : RagChain VectorStore) (w : Widgets).

Lemma render_is_markdown (h : list Message) :
  Forall (fun ev => exists role text, ev = Markdown role text)
    (List.concat (List.map render_message h)).
Proof.
  induction h as [|m h IH]; simpl; [constructor|].
  apply Forall_app. split; [|exact IH].
  destruct m as [c|t|t docs]; simpl; repeat constructor; eauto.
  destruct docs; [constructor|]. repeat constructor; eauto.
  apply Forall_forall. intros ev Hev. apply list_elem_of_In in Hev.
  apply in_map_iff in Hev as (x & <- & _). eauto.
Qed.

Lemma view_markdown {X} (view : Event -> option X) evs :
  (forall role text, view (Markdown role text) = None) ->
  Forall (fun ev => exists role text, ev = Markdown role text) evs ->
  omap view evs = [].
Proof.
  intros Hview. induction 1 as [|ev evs (role & text & ->) _ IH]; [reflexivity|].
  simpl. by rewrite Hview.
Qed.

Lemma answers_of_fragments h q context fragments :
  answers (InputChunk h q :: ContextChunk context :: List.map AnswerChunk fragments)
  = fragments.
Proof. simpl. induction fragments as [|f fs IH]; [reflexivity|]. simpl. by rewrite IH. Qed.

Lemma written_fragments fragments :
  written (List.map WriteStream fragments) = fragments.
Proof. induction fragments as [|f fs IH]; [reflexivity|]. simpl. by rewrite IH. Qed.

Lemma written_chain_calls evs :
  Forall (fun ev => is_chain_call ev = true) evs -> written evs = [].
Proof.
  induction 1 as [|ev evs Hev _ IH]; [reflexivity|].
  destruct ev; try discriminate; exact IH.
Qed.

(** The events of a turn, from a state with a chain. *)
Lemma turn_events ext w s q chain :
  process_clicked w = false -> clear_clicked w = false ->
  user_question w = Some q -> q <> "" -> chain_of s = Some chain ->
  let h := history_of (initialised s) in
  let stream := rag_chain_stream ext chain h q in
  main ext w s =
  (match failure stream with
   | Some _ => initialised s
   | None =>
       mkSessionState (Some (Some chain))
         (Some (h ++ [Human q; AI (Py.join "" (answers (chunks stream))) []]))
   end,
   List.concat (List.map render_message h)
   ++ Markdown "user" q :: effects stream
   ++ List.map WriteStream (answers (chunks stream)),
   match failure stream with
   | Some e => Raised e
   | None => Rerun
   end).
Proof.
  intros Hp Hc Hq Hne Hchain h stream.
  rewrite (main_no_button _ _ _ Hp Hc).
  rewrite (chat_input_turn _ _ _ _ chain Hq Hne); [|exact Hchain].
  fold h. fold stream. destruct (failure stream); [reflexivity|].
  simpl. by rewrite Hchain.
Qed.

Lemma written_turn (h : list Message) q calls fragments :
  Forall (fun ev => is_chain_call ev = true) calls ->
  written (List.concat (List.map render_message h)
           ++ Markdown "user" q :: calls ++ List.map WriteStream fragments)
  = fragments.
Proof.
  intros Hcalls. unfold written at 1. rewrite omap_app.
  rewrite (view_markdown _ _ (fun _ _ => eq_refl) (render_is_markdown h)).
  simpl. rewrite omap_app. fold (written calls).
  rewrite (written_chain_calls _ Hcalls). apply written_fragments.
Qed.

Lemma chain_calls_app evs1 evs2 :
  chain_calls (evs1 ++ evs2) = chain_calls evs1 ++ chain_calls evs2.
Proof. unfold chain_calls. apply omap_app. Qed.

Lemma chain_calls_render (h : list Message) :
  chain_calls (List.concat (List.map render_message h)) = [].
Proof.
  unfold chain_calls. apply view_quiet; [|apply render_quiet].
  by intros ev ->.
Qed.

Lemma chain_calls_written fragments :
  chain_calls (List.map WriteStream fragments) = [].
Proof. induction fragments as [|f fs IH]; [reflexivity|exact IH]. Qed.

(** The chain's calls among the events of a turn. *)
Lemma chain_calls_turn (h : list Message) q calls fragments :
  Forall (fun ev => is_chain_call ev = true) calls ->
  chain_calls (List.concat (List.map render_message h)
               ++ Markdown "user" q :: calls ++ List.map WriteStream fragments)
  = calls.
Proof.
  intros Hcalls. rewrite chain_calls_app, chain_calls_render, app_nil_l.
  rewrite chain_calls_cons. cbn [is_chain_call].
  rewrite chain_calls_app, chain_calls_written, app_nil_r.
  by apply chain_calls_id.
Qed.

End Turns.

(** X7: when the history-aware retriever raises, in the rewriting call or
    in the search, the run draws the history and the question, makes the
    retriever's calls up to the failure and nothing more: the answering
    model is not called, no fragment of an answer is written, and the run
    ends in that exception with the session as it was.  When it is the
    rewriting call that raises, no search is made either: the question is
    not sent to the retriever in its place. *)
Theorem failed_retrieval_fails_the_turn {VectorStore} (ext : Services VectorStore)
    (w : Widgets) (s : SessionState VectorStore) (chain : RagChain VectorStore)
    (q : string) (e : Exception) :
  reachable s ->
  process_clicked w = false -> clear_clicked w = false ->
  user_question w = Some q -> q <> "" -> chain_of s = Some chain ->
  (history_aware_retriever ext chain (history_of (initialised s)) q).2 = Raise e ->
  let h := history_of (initialised s) in
  let evs := List.concat (List.map render_message h)
             ++ Markdown "user" q :: (history_aware_retriever ext chain h q).1 in
  main ext w s = (initialised s, evs, Raised e)
  /\ answer_calls evs = []
  /\ written evs = []
  /\ ((exists e',
         llm_invoke ext (contextualize_q_prompt (str_of_history ext h) q) = Raise e')
      -> queries evs = []).
Proof.
  intros Hs Hp Hc Hq Hne Hchain Hfail h evs. subst evs h.
  rewrite (turn_events _ _ _ _ chain Hp Hc Hq Hne Hchain).
  assert (Hh : exists m rest, history_of (initialised s) = m :: rest).
  { unfold initialised, history_of. simpl.
    destruct (chat_history s) as [h0|] eqn:E; [|by eauto].
    destruct (reachable_greeting s Hs h0 E) as [rest ->]. eauto. }
  destruct Hh as (m & rest & Hh). rewrite Hh in *.
  pose proof (retriever_events ext chain (m :: rest) q) as Hcalls.
  unfold rag_chain_stream.
  destruct (history_aware_retriever ext chain (m :: rest) q)
    as [calls retrieved] eqn:Hret.
  simpl in Hfail, Hcalls. subst retrieved. cbn [effects chunks failure fst].
  change (answers [InputChunk (m :: rest) q]) with (@nil string).
  cbn [List.map]. rewrite app_nil_r.
  pose proof (chain_calls_turn (m :: rest) q calls [] Hcalls) as Hcc.
  pose proof (written_turn (m :: rest) q calls [] Hcalls) as Hw.
  cbn [List.map] in Hcc, Hw. rewrite app_nil_r in Hcc, Hw.
  split; [reflexivity|].
  rewrite retriever_with_history in Hret.
  split; [|split].
  - rewrite answer_calls_chain_calls, Hcc.
    destruct (llm_invoke ext _); by inversion Hret.
  - exact Hw.
  - intros [e' He']. rewrite He' in Hret. inversion Hret; subst.
    by rewrite queries_chain_calls, Hcc.
Qed.

Lemma failed_retrieval_fails_the_turn_witness :
  let h := history_of (initialised ex_ready) in
  let evs := List.concat (List.map render_message h)
             ++ Markdown "user" "What is X?"
                :: (history_aware_retriever ex_no_rewrite
                      (mkRagChain [mkDocument "x" "a.pdf" 1; mkDocument "y" "a.pdf" 4])
                      h "What is X?").1 in
  main ex_no_rewrite (ask "What is X?") ex_ready
  = (initialised ex_ready, evs, Raised "RewriteError")
  /\ answer_calls evs = []
  /\ written evs = []
  /\ ((exists e',
         llm_invoke ex_no_rewrite
           (contextualize_q_prompt (str_of_history ex_no_rewrite h) "What is X?")
         = Raise e')
      -> queries evs = []).
Proof.
  apply (failed_retrieval_fails_the_turn ex_no_rewrite (ask "What is X?") ex_ready
           (mkRagChain [mkDocument "x" "a.pdf" 1; mkDocument "y" "a.pdf" 4])
           "What is X?" "RewriteError"); try reflexivity.
  - apply (reachable_run ex_services (mkWidgets [ex_pdf] true false None) ex_fresh).
    apply reachable_start.
  - discriminate.
Defined.

(** X8: in a turn whose retrieval returns, the fragments written to the
    page are those the answering model streams on [qa_prompt], in order,
    also when the stream then fails; when it ends without exception, the
    answer stored in the history is their concatenation, and when it fails
    nothing is stored. *)
Theorem answer_is_what_was_streamed {VectorStore} (ext : Services VectorStore)
    (w : Widgets) (s : SessionState VectorStore) (chain : RagChain VectorStore)
    (q : string) (context : list Document) (fragments : list string)
    (failed : option Exception) :
  process_clicked w = false -> clear_clicked w = false ->
  user_question w = Some q -> q <> "" -> chain_of s = Some chain ->
  (history_aware_retriever ext chain (history_of (initialised s)) q).2 = Ok context ->
  llm_stream ext (qa_prompt (format_docs context) q) = (fragments, failed) ->
  exists evs,
    written evs = fragments
    /\ main ext w s
       = match failed with
         | None =>
             (mkSessionState (Some (Some chain))
                (Some (history_of (initialised s)
                       ++ [Human q; AI (Py.join "" fragments) []])),
              evs, Rerun)
         | Some e => (initialised s, evs, Raised e)
         end.
Proof.
  intros Hp Hc Hq Hne Hchain Hret Hllm.
  rewrite (turn_events _ _ _ _ chain Hp Hc Hq Hne Hchain).
  pose proof (stream_events ext chain (history_of (initialised s)) q) as Hcalls.
  unfold rag_chain_stream in *.
  destruct (history_aware_retriever ext chain (history_of (initialised s)) q)
    as [calls retrieved].
  simpl in Hret. subst retrieved. rewrite Hllm in *.
  cbn [effects chunks failure] in *. rewrite answers_of_fragments.
  eexists. split; [apply (written_turn (history_of (initialised s)) q _ fragments Hcalls)|].
  by destruct failed.
Qed.

Lemma answer_is_what_was_streamed_witness :
  exists evs,
    written evs = ["Hello"; " world"]
    /\ main ex_services (ask "What is X?") ex_ready
       = (mkSessionState
            (Some (Some (mkRagChain [mkDocument "x" "a.pdf" 1; mkDocument "y" "a.pdf" 4])))
            (Some (history_of (initialised ex_ready)
                   ++ [Human "What is X?"; AI (Py.join "" ["Hello"; " world"]) []])),
          evs, Rerun).
Proof.
  apply (answer_is_what_was_streamed ex_services (ask "What is X?") ex_ready
           (mkRagChain [mkDocument "x" "a.pdf" 1; mkDocument "y" "a.pdf" 4])
           "What is X?" [mkDocument "x" "a.pdf" 1; mkDocument "y" "a.pdf" 4]
           ["Hello"; " world"] None); try reflexivity.
  discriminate.
Defined.

(** X9: a run in which no button is clicked and nothing is asked, or the
    question is the empty string, only sets the missing keys of the session
    and draws the history: it calls no service, shows no warning even when
    nothing was processed, and a second such run changes nothing. *)
Theorem idle_run_only_draws {VectorStore} (ext : Services VectorStore)
    (w : Widgets) (s : SessionState VectorStore) :
  process_clicked w = false -> clear_clicked w = false ->
  user_question w = None \/ user_question w = Some "" ->
  main ext w s
  = (initialised s,
     List.concat (List.map render_message (history_of (initialised s))),
     Finished)
  /\ (main ext w (initialised s)).1.1 = initialised s.
Proof.
  intros Hp Hc Hq.
  assert (H : forall s0 : SessionState VectorStore,
            main ext w s0
            = (initialised s0,
               List.concat (List.map render_message (history_of (initialised s0))),
               Finished)).
  { intros s0. rewrite (main_no_button _ _ _ Hp Hc).
    unfold chat_input. destruct Hq as [-> | ->]; simpl; by rewrite app_nil_r. }
  split; [apply H|]. rewrite H. simpl. by destruct s as [[c|] [h|]].
Qed.

Lemma idle_run_only_draws_witness :
  main ex_services (mkWidgets [] false false (Some "")) ex_fresh
  = (initialised ex_fresh,
     List.concat (List.map render_message (history_of (initialised ex_fresh))),
     Finished)
  /\ (main ex_services (mkWidgets [] false false (Some "")) (initialised ex_fresh)).1.1
     = initialised ex_fresh.
Proof.
  apply (idle_run_only_draws ex_services (mkWidgets [] false false (Some "")) ex_fresh);
    try reflexivity. by right.
Defined.

(** ** The text extractor, on any files *)

Lemma extract_pages_acc pages : forall pdf_name i documents,
  extract_pages pdf_name i pages documents
  = (records <- extract_pages pdf_name i pages [] ;; Ok (documents ++ records)).
Proof.
  induction pages as [|p pages IH]; intros pdf_name i documents.
  - simpl. by rewrite app_nil_r.
  - destruct p as [text|e]; [|reflexivity]. cbn [extract_pages bind].
    rewrite IH. rewrite (IH _ _ (if Py.truthy text then _ else _)).
    destruct (extract_pages pdf_name (S i) pages []) as [records|e]; [|reflexivity].
    cbn [bind]. destruct (Py.truthy text); [|reflexivity].
    by rewrite <- app_assoc.
Qed.

Lemma extract_pdfs_acc pdfs : forall documents,
  extract_pdfs pdfs documents
  = (records <- extract_pdfs pdfs [] ;; Ok (documents ++ records)).
Proof.
  induction pdfs as [|pdf pdfs IH]; intros documents.
  - simpl. by rewrite app_nil_r.
  - cbn [extract_pdfs]. destruct (reader_pages pdf) as [pages|e]; [|reflexivity].
    cbn [bind]. rewrite extract_pages_acc.
    destruct (extract_pages (name pdf) 0 pages []) as [records|e]; [|reflexivity].
    cbn [bind app]. rewrite (IH (documents ++ records)), (IH records).
    destruct (extract_pdfs pdfs []) as [others|e]; [|reflexivity].
    cbn [bind]. by rewrite <- app_assoc.
Qed.

Lemma extract_pdfs_app pdfs1 : forall pdfs2 documents,
  extract_pdfs (pdfs1 ++ pdfs2) documents
  = (documents' <- extract_pdfs pdfs1 documents ;; extract_pdfs pdfs2 documents').
Proof.
  induction pdfs1 as [|pdf pdfs1 IH]; intros pdfs2 documents; [reflexivity|].
  cbn [app extract_pdfs]. destruct (reader_pages pdf) as [pages|e]; [|reflexivity].
  cbn [bind]. destruct (extract_pages (name pdf) 0 pages documents); [|reflexivity].
  cbn [bind]. apply IH.
Qed.

(** X11: extraction goes file by file: the records of two lists of files
    uploaded together are the records of the first list followed by those
    of the second, and an exception in the first list is raised before the
    second is read. *)
Theorem extraction_goes_file_by_file (pdfs1 pdfs2 : list UploadedFile) :
  get_pdf_text_and_metadata (pdfs1 ++ pdfs2)
  = (documents1 <- get_pdf_text_and_metadata pdfs1 ;;
     documents2 <- get_pdf_text_and_metadata pdfs2 ;;
     Ok (documents1 ++ documents2)).
Proof.
  unfold get_pdf_text_and_metadata. rewrite extract_pdfs_app.
  destruct (extract_pdfs pdfs1 []) as [documents1|e]; [|reflexivity].
  cbn [bind]. apply extract_pdfs_acc.
Qed.

Lemma extract_pages_failure texts : forall pdf_name i documents e pages,
  extract_pages pdf_name i (List.map Ok texts ++ Raise e :: pages) documents = Raise e.
Proof.
  induction texts as [|text texts IH]; intros pdf_name i documents e pages;
    [reflexivity|].
  cbn [List.map app extract_pages bind]. apply IH.
Qed.

(** X10: extraction is all or nothing.  When PyPDF2 cannot open a file, or
    cannot extract one of its pages, the call raises that exception, and
    the records of the files and pages read before it are lost; the files
    after it are not read. *)
Theorem unreadable_file_fails_extraction (files : list (string * list string))
    (pdf : UploadedFile) (others : list UploadedFile) (e : Exception) :
  reader_pages pdf = Raise e
  \/ (exists texts pages,
        reader_pages pdf = Ok (List.map Ok texts ++ Raise e :: pages)) ->
  get_pdf_text_and_metadata (List.map readable files ++ pdf :: others) = Raise e.
Proof.
  intros Hpdf. rewrite extraction_goes_file_by_file, get_pdf_text_readable.
  cbn [bind]. unfold get_pdf_text_and_metadata. cbn [extract_pdfs].
  destruct Hpdf as [-> | (texts & pages & ->)]; [reflexivity|].
  cbn [bind]. by rewrite extract_pages_failure.
Qed.

Lemma unreadable_file_fails_extraction_witness :
  get_pdf_text_and_metadata
    (List.map readable [("a.pdf", ["x"; ""; " "; "y"])]
     ++ mkUploadedFile "b.pdf" (Ok (List.map Ok ["p"] ++ Raise "PdfReadError" :: [Ok "q"]))
     :: [readable ("c.pdf", ["z"])])
  = Raise "PdfReadError".
Proof.
  apply (unreadable_file_fails_extraction [("a.pdf", ["x"; ""; " "; "y"])]
           (mkUploadedFile "b.pdf" (Ok (List.map Ok ["p"] ++ Raise "PdfReadError" :: [Ok "q"])))
           [readable ("c.pdf", ["z"])] "PdfReadError").
  right. by exists ["p"], [Ok "q"].
Defined.

(** ** The chunker, page by page *)

Section Pages.

Import CharacterTextSplitter.

Lemma split_text_ok text :
  exists page_chunks,
    split_text text = Ok page_chunks
    /\ packing (split_text_with_regex text) page_chunks.
Proof. apply merge_splits_packing, split_lines_nonempty. Qed.

Lemma split_documents_cons doc documents :
  split_documents (doc :: documents)
  = (page_chunks <- split_text (page_content doc) ;;
     others <- split_documents documents ;;
     Ok (tagged doc page_chunks ++ others)).
Proof. reflexivity. Qed.

Lemma split_documents_ok documents :
  exists chunks, split_documents documents = Ok chunks.
Proof.
  induction documents as [|doc documents [others IH]]; [by exists []|].
  destruct (split_text_ok (page_content doc)) as (page_chunks & Hpage & _).
  rewrite split_documents_cons, Hpage, IH. cbn [bind]. eauto.
Qed.

End Pages.

(** X17: pages are chunked one by one: the chunks of two lists of pages
    are the chunks of the first followed by the chunks of the second, so a
    page's chunks do not depend on the pages around it. *)
Theorem chunking_goes_page_by_page (documents1 documents2 : list Document) :
  exists chunks1 chunks2,
    get_text_chunks documents1 = Ok chunks1
    /\ get_text_chunks documents2 = Ok chunks2
    /\ get_text_chunks (documents1 ++ documents2) = Ok (chunks1 ++ chunks2).
Proof.
  unfold get_text_chunks.
  destruct (split_documents_ok documents2) as [chunks2 H2].
  induction documents1 as [|doc documents1 (chunks1 & c2 & H1 & Hc2 & IH)].
  - exists [], chunks2. by repeat split.
  - rewrite H2 in Hc2. inversion Hc2; subst c2.
    destruct (split_text_ok (page_content doc)) as (page_chunks & Hpage & _).
    exists (tagged doc page_chunks ++ chunks1), chunks2.
    cbn [app]. rewrite !split_documents_cons, Hpage, H1, IH. cbn [bind].
    by rewrite <- app_assoc.
Qed.

(** X12: a chunk never spans pages and keeps its page's provenance: the
    chunks returned are exactly the chunks of the text of each page, each
    under the source and the page number of that page. *)
Theorem chunks_keep_their_page (documents chunks : list Document) :
  get_text_chunks documents = Ok chunks ->
  forall c,
    c ∈ chunks <->
    exists doc page_chunks,
      doc ∈ documents
      /\ CharacterTextSplitter.split_text (page_content doc) = Ok page_chunks
      /\ page_content c ∈ page_chunks
      /\ source c = source doc /\ page c = page doc.
Proof.
  unfold get_text_chunks. revert chunks.
  induction documents as [|doc documents IH]; intros chunks Hrun c.
  - inversion Hrun; subst. split; [intros H; inversion H|].
    intros (doc & ? & H & _). inversion H.
  - rewrite split_documents_cons in Hrun.
    destruct (CharacterTextSplitter.split_text (page_content doc))
      as [page_chunks|e] eqn:Hpage; [|discriminate].
    cbn [bind] in Hrun.
    destruct (CharacterTextSplitter.split_documents documents) as [others|e];
      [|discriminate].
    cbn [bind] in Hrun. inversion Hrun; subst chunks; clear Hrun.
    rewrite elem_of_app, (IH others eq_refl c). unfold tagged. split.
    + intros [Hin|(doc' & pc & Hdoc & Hsplit & Hrest)].
      * apply list_elem_of_In, in_map_iff in Hin as (text & <- & Hin).
        exists doc, page_chunks. simpl.
        split; [left|]. split; [done|]. by split; [apply list_elem_of_In|].
      * exists doc', pc. split; [by right|done].
    + intros (doc' & pc & Hdoc & Hsplit & Hin & Hsrc & Hpg).
      apply elem_of_cons in Hdoc as [->|Hdoc].
      * left. rewrite Hpage in Hsplit. inversion Hsplit; subst pc.
        apply list_elem_of_In, in_map_iff. exists (page_content c).
        split; [|by apply list_elem_of_In]. destruct c; simpl in *. congruence.
      * right. by exists doc', pc.
Qed.

Lemma chunks_keep_their_page_witness :
  mkDocument "C" "b.pdf" 7 ∈ [mkDocument "A B" "a.pdf" 1; mkDocument "C" "b.pdf" 7]
  <-> exists doc page_chunks,
      doc ∈ [mkDocument " A B " "a.pdf" 1; mkDocument "C" "b.pdf" 7]
      /\ CharacterTextSplitter.split_text (page_content doc) = Ok page_chunks
      /\ page_content (mkDocument "C" "b.pdf" 7) ∈ page_chunks
      /\ source (mkDocument "C" "b.pdf" 7) = source doc
      /\ page (mkDocument "C" "b.pdf" 7) = page doc.
Proof.
  apply (chunks_keep_their_page
           [mkDocument " A B " "a.pdf" 1; mkDocument "C" "b.pdf" 7]).
  reflexivity.
Defined.

Section Stripping.

Lemma lstrip_head s :
  Py.lstrip s = ""
  \/ exists c r, Py.lstrip s = String c r /\ Py.isspace c = false.
Proof.
  induction s as [|c s IH]; [by left|]. simpl.
  destruct (Py.isspace c) eqn:E; [exact IH|]. right. by exists c, s.
Qed.

Lemma rstrip_head c r :
  Py.isspace c = false -> exists r', Py.rstrip (String c r) = String c r'.
Proof. intros E. simpl. destruct (Py.rstrip r); rewrite ?E; eauto. Qed.

Lemma rstrip_idem s : Py.rstrip (Py.rstrip s) = Py.rstrip s.
Proof.
  induction s as [|c s IH]; [reflexivity|]. simpl.
  destruct (Py.rstrip s) as [|b r] eqn:E.
  - destruct (Py.isspace c) eqn:Ec; [reflexivity|]. simpl. by rewrite Ec.
  - change (Py.rstrip (String c (String b r)))
      with (match Py.rstrip (String b r) with
            | "" => if Py.isspace c then "" else String c ""
            | r' => String c r'
            end).
    by rewrite IH.
Qed.

(** Stripping a text that is stripped changes nothing. *)
Lemma strip_idem s : Py.strip (Py.strip s) = Py.strip s.
Proof.
  unfold Py.strip. destruct (lstrip_head s) as [->|(c & r & -> & Ec)];
    [reflexivity|].
  destruct (rstrip_head c r Ec) as [r' Hr]. rewrite Hr.
  change (Py.lstrip (String c r')) with (if Py.isspace c then Py.lstrip r' else String c r').
  rewrite Ec, <- Hr. apply rstrip_idem.
Qed.

Lemma lstrip_blank s : blank s = true -> Py.lstrip s = "".
Proof.
  induction s as [|c s IH]; [done|]. simpl. intros H.
  apply andb_true_iff in H as [-> Hs]. by apply IH.
Qed.

Lemma strip_blank s : blank s = true -> Py.strip s = "".
Proof. intros H. unfold Py.strip. by rewrite (lstrip_blank s H). Qed.

Lemma blank_append s t : blank (s +:+ t) = blank s && blank t.
Proof.
  induction s as [|c s IH]; [reflexivity|].
  change (blank (String c s +:+ t)) with (Py.isspace c && blank (s +:+ t)).
  simpl. by rewrite IH, andb_assoc.
Qed.

Lemma blank_join lines :
  Forall (fun line => blank line = true) lines ->
  blank (Py.join CharacterTextSplitter.separator lines) = true.
Proof.
  induction 1 as [|x l Hx Hl IH]; [reflexivity|].
  destruct l as [|y l]; [exact Hx|].
  change (Py.join CharacterTextSplitter.separator (x :: y :: l))
    with (x +:+ CharacterTextSplitter.separator
          +:+ Py.join CharacterTextSplitter.separator (y :: l)).
  rewrite !blank_append, Hx, IH. reflexivity.
Qed.

Lemma blank_split c s :
  blank s = true -> Forall (fun p => blank p = true) (Py.split c s).
Proof.
  induction s as [|a s IH]; simpl; [by repeat constructor|]. intros H.
  apply andb_true_iff in H as [Ha Hs]. specialize (IH Hs).
  destruct (Ascii.eqb a c); [by constructor|].
  destruct (Py.split c s) as [|p ps]; [by repeat constructor; simpl; rewrite Ha|].
  inversion IH; subst. constructor; [|done]. simpl. by rewrite Ha.
Qed.

End Stripping.

Section PageChunks.

Import CharacterTextSplitter.

Lemma chunk_of_stripped g c :
  chunk_of g = Some c -> c <> "" /\ Py.strip c = c.
Proof.
  unfold chunk_of, join_docs. intros H.
  destruct (Py.truthy (Py.strip (Py.join separator (group_lines g)))) eqn:E;
    [|discriminate].
  inversion H; subst c. split; [by apply truthy_nonempty|apply strip_idem].
Qed.

Lemma chunk_of_blank g :
  Forall (fun line => blank line = true) (group_lines g) -> chunk_of g = None.
Proof.
  intros H. unfold chunk_of, join_docs.
  by rewrite (strip_blank _ (blank_join _ H)).
Qed.

(** A page of white space only has no chunk. *)
Lemma split_text_blank text : blank text = true -> split_text text = Ok [].
Proof.
  intros Hblank.
  destruct (split_text_ok text)
    as (page_chunks & -> & first & rest & -> & Hcover & Hcarry & _).
  f_equal.
  assert (Hlines : Forall (fun line => blank line = true) (split_text_with_regex text)).
  { unfold split_text_with_regex. apply Forall_forall. intros line Hin.
    apply list_elem_of_In, filter_In in Hin as [Hin _].
    pose proof (blank_split separator_char text Hblank) as Hall.
    rewrite Forall_forall in Hall. by apply Hall, list_elem_of_In. }
  rewrite <- Hcover in Hlines. apply Forall_app in Hlines as [Hfirst Hrest].
  assert (Hgroups : Forall (fun g => Forall (fun line => blank line = true)
                                       (group_lines g)) (([], first) :: rest)).
  { constructor; [exact Hfirst|]. by apply (carried_lines _ rest first). }
  clear Hcover Hcarry Hfirst Hrest. induction Hgroups as [|g groups Hg _ IH]; [reflexivity|].
  simpl. by rewrite (chunk_of_blank g Hg).
Qed.

End PageChunks.

(** X13: every chunk has some text and is stripped: it is not the empty
    string, and it neither starts nor ends with white space (stripping it
    again changes nothing). *)
Theorem chunks_are_stripped (documents chunks : list Document) (c : Document) :
  get_text_chunks documents = Ok chunks -> c ∈ chunks ->
  page_content c <> "" /\ Py.strip (page_content c) = page_content c.
Proof.
  intros Hrun Hc.
  apply (chunks_keep_their_page _ _ Hrun) in Hc
    as (doc & page_chunks & _ & Hsplit & Hin & _).
  destruct (split_text_ok (page_content doc))
    as (pc & Hpc & first & rest & Hchunks & _).
  rewrite Hsplit in Hpc. injection Hpc as <-. rewrite Hchunks in Hin.
  apply list_elem_of_omap in Hin as (g & _ & Hg).
  by apply (chunk_of_stripped g).
Qed.

Lemma chunks_are_stripped_witness :
  page_content (mkDocument "A B" "a.pdf" 1) <> ""
  /\ Py.strip (page_content (mkDocument "A B" "a.pdf" 1))
     = page_content (mkDocument "A B" "a.pdf" 1).
Proof.
  apply (chunks_are_stripped [mkDocument " A B " "a.pdf" 1]
           [mkDocument "A B" "a.pdf" 1]); [reflexivity|left].
Defined.

(** X14: a page whose text is empty or white space only gives no chunk:
    chunking a list of pages gives what chunking it without those pages
    gives, so the record the extractor keeps for a page of white space
    never reaches the index. *)
Theorem blank_pages_give_no_chunks (documents : list Document) :
  get_text_chunks documents
  = get_text_chunks
      (List.filter (fun doc => negb (blank (page_content doc))) documents).
Proof.
  unfold get_text_chunks.
  induction documents as [|doc documents IH]; [reflexivity|].
  cbn [List.filter]. destruct (blank (page_content doc)) eqn:Hblank; cbn [negb].
  - rewrite split_documents_cons, (split_text_blank _ Hblank). cbn [bind].
    rewrite <- IH.
    by destruct (CharacterTextSplitter.split_documents documents).
  - by rewrite !split_documents_cons, IH.
Qed.

Section ShortPages.

Import CharacterTextSplitter.

Lemma joined_len_app_l l l' : joined_len l <= joined_len (l ++ l').
Proof.
  induction l as [|x l IH]; [apply joined_len_nonneg|].
  change ((x :: l) ++ l') with (x :: (l ++ l')). rewrite !joined_len_cons.
  pose proof (joined_len_nonneg (l ++ l')).
  destruct l as [|y l]; simpl in *; [destruct l'; simpl; lia|lia].
Qed.

Lemma split_nonempty c s : Py.split c s <> [].
Proof.
  destruct s as [|a s]; simpl; [done|].
  destruct (Ascii.eqb a c); [done|]. by destruct (Py.split c s).
Qed.

(** Joining the pieces of a split gives back the length of the text. *)
Lemma joined_len_split s : joined_len (Py.split separator_char s) = Py.len s.
Proof.
  induction s as [|a s IH]; [reflexivity|].
  pose proof (split_nonempty separator_char s) as Hne.
  assert (Hlen : Py.len (String a s) = 1 + Py.len s).
  { unfold Py.len. simpl String.length. lia. }
  simpl Py.split. destruct (Ascii.eqb a separator_char).
  - rewrite joined_len_cons.
    destruct (Py.split separator_char s); [done|]. cbn [nonempty].
    change (Py.len "") with 0. lia.
  - destruct (Py.split separator_char s) as [|p ps]; [done|].
    rewrite joined_len_cons in *.
    assert (Hp : Py.len (String a p) = 1 + Py.len p).
    { unfold Py.len. simpl String.length. lia. }
    lia.
Qed.

Lemma joined_len_filter l : joined_len (List.filter Py.truthy l) <= joined_len l.
Proof.
  induction l as [|x l IH]; [simpl; lia|].
  rewrite joined_len_cons. pose proof (len_nonneg x).
  pose proof (joined_len_nonneg l).
  destruct x as [|a x]; simpl List.filter.
  - destruct l; cbn [nonempty]; [exact IH|lia].
  - rewrite joined_len_cons.
    destruct (List.filter Py.truthy l) eqn:E; cbn [nonempty].
    + destruct l; cbn [nonempty]; lia.
    + destruct l; [discriminate|]. cbn [nonempty]. lia.
Qed.

Lemma joined_len_lines text : joined_len (split_text_with_regex text) <= Py.len text.
Proof.
  unfold split_text_with_regex.
  pose proof (joined_len_filter (Py.split separator_char text)).
  rewrite joined_len_split in *. lia.
Qed.

(** The loop never closes a chunk when all the lines fit in one. *)
Lemma merge_loop_fits splits : forall docs current_doc,
  joined_len (current_doc ++ splits) <= chunk_size ->
  merge_loop splits docs current_doc (joined_len current_doc)
  = Ok (append_doc docs (join_docs (current_doc ++ splits))).
Proof.
  induction splits as [|d splits IH]; intros docs current_doc Hfit.
  - cbn [merge_loop]. by rewrite app_nil_r.
  - cbn [merge_loop].
    assert (Hroom : overflows (joined_len current_doc) (length_function d) current_doc
                    = false).
    { unfold overflows, length_function. apply Z.ltb_ge.
      rewrite <- joined_len_snoc.
      pose proof (joined_len_app_l (current_doc ++ [d]) splits) as H.
      rewrite <- app_assoc in H. simpl in H. lia. }
    rewrite Hroom. cbn [andb bind]. rewrite several_snoc.
    replace (joined_len current_doc
             + (length_function d + sep_if nonempty current_doc))
      with (joined_len (current_doc ++ [d]))
      by (rewrite joined_len_snoc; unfold length_function; lia).
    rewrite IH; [|by rewrite <- app_assoc].
    by rewrite <- app_assoc.
Qed.

End ShortPages.

(** X15: a page of at most [chunk_size] characters gives at most one
    chunk: its non-empty lines joined by the separator and stripped, under
    the page's source and number, or nothing when that text is empty. *)
Theorem short_page_is_one_chunk (doc : Document) :
  Py.len (page_content doc) <= CharacterTextSplitter.chunk_size ->
  get_text_chunks [doc]
  = Ok match CharacterTextSplitter.join_docs
              (CharacterTextSplitter.split_text_with_regex (page_content doc)) with
       | Some chunk => [mkDocument chunk (source doc) (page doc)]
       | None => []
       end.
Proof.
  intros Hshort. unfold get_text_chunks. rewrite split_documents_cons.
  unfold CharacterTextSplitter.split_text, CharacterTextSplitter.merge_splits.
  change 0 with (joined_len []).
  rewrite merge_loop_fits.
  2:{ pose proof (joined_len_lines (page_content doc)). simpl. lia. }
  cbn [bind app CharacterTextSplitter.split_documents].
  by destruct (CharacterTextSplitter.join_docs _).
Qed.

Lemma short_page_is_one_chunk_witness :
  get_text_chunks [mkDocument " A B " "a.pdf" 1]
  = Ok match CharacterTextSplitter.join_docs
              (CharacterTextSplitter.split_text_with_regex
                 (page_content (mkDocument " A B " "a.pdf" 1))) with
       | Some chunk => [mkDocument chunk "a.pdf" 1]
       | None => []
       end.
Proof.
  apply (short_page_is_one_chunk (mkDocument " A B " "a.pdf" 1)).
  vm_compute. discriminate.
Defined.

Section Counting.

Import CharacterTextSplitter.

Lemma length_append_doc docs doc :
  (length (append_doc docs doc) <= S (length docs))%nat.
Proof. destruct doc; simpl; [rewrite length_app; simpl|]; lia. Qed.

Lemma join_docs_nil : join_docs [] = None.
Proof. reflexivity. Qed.

(** The loop closes at most one chunk per line, and one at the end when
    some line is left. *)
Lemma merge_loop_count splits : forall docs current_doc,
  Forall (fun line => 0 < Py.len line) splits ->
  Forall (fun line => 0 < Py.len line) current_doc ->
  exists out,
    merge_loop splits docs current_doc (joined_len current_doc) = Ok out
    /\ (length out
        <= length docs + length splits + (if nonempty current_doc then 1 else 0))%nat.
Proof.
  induction splits as [|d splits IH]; intros docs current_doc Hsplits Hcur.
  - cbn [merge_loop]. eexists. split; [reflexivity|].
    destruct current_doc; [rewrite join_docs_nil; simpl; lia|].
    pose proof (length_append_doc docs (join_docs (s :: current_doc))).
    simpl in *. lia.
  - inversion Hsplits as [|? ? Hd Hsplits']; subst. cbn [merge_loop].
    destruct (overflows (joined_len current_doc) (length_function d) current_doc
              && nonempty current_doc) eqn:Hover.
    + apply andb_true_iff in Hover as [_ Hne].
      destruct (pop_while_spec (length_function d) current_doc Hcur)
        as (k & Hpop & _). cbv zeta in Hpop. rewrite Hpop. cbn [bind].
      set (kept := drop k current_doc) in *.
      assert (Hkept : Forall (fun line => 0 < Py.len line) (kept ++ [d])).
      { apply Forall_app. split; [by apply Forall_drop|by constructor]. }
      destruct (IH (append_doc docs (join_docs current_doc)) (kept ++ [d])
                  Hsplits' Hkept) as (out & Hrun & Hlen).
      rewrite joined_len_snoc in Hrun. rewrite several_snoc.
      replace (joined_len kept + (length_function d + sep_if nonempty kept))
        with (joined_len kept + Py.len d + sep_if nonempty kept)
        by (unfold length_function; lia).
      exists out. split; [exact Hrun|].
      pose proof (length_append_doc docs (join_docs current_doc)).
      rewrite Hne. destruct (nonempty (kept ++ [d])); simpl in *; lia.
    + cbn [bind].
      assert (Hcur' : Forall (fun line => 0 < Py.len line) (current_doc ++ [d])).
      { apply Forall_app. split; [done|by constructor]. }
      destruct (IH docs (current_doc ++ [d]) Hsplits' Hcur') as (out & Hrun & Hlen).
      rewrite joined_len_snoc in Hrun. rewrite several_snoc.
      replace (joined_len current_doc
               + (length_function d + sep_if nonempty current_doc))
        with (joined_len current_doc + Py.len d + sep_if nonempty current_doc)
        by (unfold length_function; lia).
      exists out. split; [exact Hrun|].
      destruct (nonempty (current_doc ++ [d])), (nonempty current_doc);
        simpl in *; lia.
Qed.

Lemma split_text_count text :
  exists page_chunks,
    split_text text = Ok page_chunks
    /\ (length page_chunks <= length (split_text_with_regex text))%nat.
Proof.
  destruct (merge_loop_count (split_text_with_regex text) [] []
              (split_lines_nonempty text) (List.Forall_nil _)) as (out & Hrun & Hlen).
  exists out. split; [exact Hrun|]. simpl in Hlen. lia.
Qed.

End Counting.

(** X16: a page never gives more chunks than it has non-empty lines: the
    chunker returns at most as many chunks as the pages have non-empty
    lines in all. *)
Theorem chunks_are_at_most_lines (documents : list Document) :
  exists chunks,
    get_text_chunks documents = Ok chunks
    /\ (length chunks
        <= list_sum
             (List.map
                (fun doc =>
                   length (CharacterTextSplitter.split_text_with_regex (page_content doc)))
                documents))%nat.
Proof.
  unfold get_text_chunks.
  induction documents as [|doc documents (others & Hrun & Hlen)].
  - exists []. split; [reflexivity|simpl; lia].
  - destruct (split_text_count (page_content doc)) as (page_chunks & Hpage & Hcount).
    exists (tagged doc page_chunks ++ others).
    rewrite split_documents_cons, Hpage, Hrun. cbn [bind].
    split; [reflexivity|]. unfold tagged.
    rewrite length_app, length_map. simpl. lia.
Qed.

Lemma blank_files_chunks (files : list (string * list string)) :
  Forall (fun file => Forall (fun text => blank text = true) file.2) files ->
  exists documents,
    get_pdf_text_and_metadata (List.map readable files) = Ok documents
    /\ get_text_chunks documents = Ok [].
Proof.
  intros Hblank. eexists. split; [apply get_pdf_text_readable|].
  rewrite blank_pages_give_no_chunks.
  assert (Hnone : List.filter (fun doc => negb (blank (page_content doc)))
                    (List.concat (List.map (fun f => page_records f.1 0 f.2) files))
                  = []).
  { induction Hblank as [|[n texts] files Hfile _ IH]; [reflexivity|].
    cbn [List.map List.concat fst snd]. rewrite List.filter_app, IH, app_nil_r.
    simpl in Hfile. generalize 0%nat.
    induction Hfile as [|text texts Htext _ IHt]; intros first; [reflexivity|].
    rewrite page_records_cons. unfold page_record.
    destruct (Py.truthy text); [|apply IHt].
    cbn [List.filter page_content]. rewrite Htext. apply IHt. }
  by rewrite Hnone.
Qed.

(** X18: Process does not look at what extraction and chunking return.
    When every page of the uploaded files is empty or white space only,
    the embedding and indexing service is still called, on an empty list of
    chunks; what it answers decides whether a chain is installed or the run
    ends in its exception. *)
Theorem blank_files_index_nothing {VectorStore} (ext : Services VectorStore)
    (w : Widgets) (s : SessionState VectorStore)
    (files : list (string * list string)) :
  process_clicked w = true -> clear_clicked w = false -> user_question w = None ->
  files <> [] -> pdf_docs w = List.map readable files ->
  Forall (fun file => Forall (fun text => blank text = true) file.2) files ->
  main ext w s
  = match from_documents ext [] with
    | Ok vectorstore =>
        (mkSessionState (Some (Some (get_conversation_rag_chain vectorstore)))
           (Some (history_of (initialised s))),
         EmbedDocuments [] :: Success "Processing complete!"
         :: List.concat (List.map render_message (history_of (initialised s))),
         Finished)
    | Raise e => (initialised s, [EmbedDocuments []], Raised e)
    end.
Proof.
  intros Hp Hc Hq Hfiles Hpdfs Hblank.
  destruct (blank_files_chunks files Hblank) as (documents & Hdocs & Hchunks).
  assert (Hpb : forall s0 : SessionState VectorStore,
            process_button ext w s0
            = match from_documents ext [] with
              | Ok vectorstore =>
                  (mkSessionState (Some (Some (get_conversation_rag_chain vectorstore)))
                     (chat_history s0),
                   [EmbedDocuments []; Success "Processing complete!"], Next tt)
              | Raise e => (s0, [EmbedDocuments []], Stop (Raised e))
              end).
  { intros s0. unfold process_button. rewrite Hp, Hpdfs.
    destruct files as [|file files]; [done|]. cbn [List.map when].
    change (readable file :: List.map readable files)
      with (List.map readable (file :: files)).
    unfold app_bind, lift, emit, get, put, get_vectorstore. cbv beta.
    rewrite Hdocs. cbv beta iota. rewrite Hchunks. cbv beta iota.
    destruct (from_documents ext []); by destruct s0. }
  unfold main, script. unfold app_bind at 1. rewrite init_session_eq.
  unfold app_bind at 1. rewrite Hpb.
  destruct (from_documents ext []) as [vs|e]; [|reflexivity].
  unfold app_bind at 1. rewrite (clear_button_idle _ _ Hc).
  unfold app_bind at 1. rewrite render_history_eq.
  rewrite (chat_input_idle _ _ _ Hq). cbn [app]. by rewrite app_nil_r.
Qed.

Lemma blank_files_index_nothing_witness :
  main ex_services
    (mkWidgets (List.map readable [("blank.pdf", [""; " "])]) true false None)
    ex_fresh
  = (mkSessionState (Some (Some (get_conversation_rag_chain [])))
       (Some (history_of (initialised ex_fresh))),
     EmbedDocuments [] :: Success "Processing complete!"
     :: List.concat (List.map render_message (history_of (initialised ex_fresh))),
     Finished).
Proof.
  apply (blank_files_index_nothing ex_services
           (mkWidgets (List.map readable [("blank.pdf", [""; " "])]) true false None)
           ex_fresh [("blank.pdf", [""; " "])]); try reflexivity.
  - discriminate.
  - repeat constructor.
Defined.

(** * The rewriting call and the missing index *)

(** C3, as the code has it: the chain sends the question itself to the
    retriever, with no rewriting call, only on an empty history.  On any
    other history it calls the rewriting model once and retrieves with its
    output.  [main] never hands over an empty history, since the history
    starts with the greeting: in every turn, the first included, the
    rewriting model is called once, on [contextualize_q_prompt] filled with
    the history and the question, and the one query sent to the retriever
    is what it returns (none is sent when the call fails).  And in any run
    at all, a query is sent only after such a rewriting call. *)
Theorem rewriting_skipped_only_on_empty_history {VectorStore}
    (ext : Services VectorStore) :
  (forall chain q,
     history_aware_retriever ext chain [] q
     = ([RetrieverInvoke q], retriever_invoke ext (retriever chain) q))
  /\ (forall chain m h q,
        let p := contextualize_q_prompt (str_of_history ext (m :: h)) q in
        let evs := (history_aware_retriever ext chain (m :: h) q).1 in
        rewrite_calls evs = [p]
        /\ queries evs = match llm_invoke ext p with
                         | Ok query => [query]
                         | Raise _ => []
                         end)
  /\ (forall w s chain q,
        reachable s ->
        process_clicked w = false -> clear_clicked w = false ->
        user_question w = Some q -> q <> "" -> chain_of s = Some chain ->
        let p := contextualize_q_prompt
                   (str_of_history ext (history_of (initialised s))) q in
        let evs := (main ext w s).1.2 in
        history_of (initialised s) <> []
        /\ rewrite_calls evs = [p]
        /\ queries evs = match llm_invoke ext p with
                         | Ok query => [query]
                         | Raise _ => []
                         end)
  /\ (forall w s s' evs outcome,
        reachable s ->
        main ext w s = (s', evs, outcome) ->
        (rewrite_calls evs = [] /\ queries evs = [])
        \/ exists q,
             user_question w = Some q
             /\ let p := contextualize_q_prompt
                           (str_of_history ext (history_of (initialised s))) q in
                rewrite_calls evs = [p]
                /\ queries evs = match llm_invoke ext p with
                                 | Ok query => [query]
                                 | Raise _ => []
                                 end).
Proof.
  assert (Hgreet : forall s : SessionState VectorStore,
            reachable s -> exists rest, history_of (initialised s) = greeting :: rest).
  { intros s Hs. unfold initialised, history_of. simpl.
    destruct (chat_history s) as [h0|] eqn:E; [|by exists []].
    by apply (reachable_greeting s Hs). }
  split; [reflexivity|]. split; [|split].
  - intros chain m h q p evs. subst evs. rewrite retriever_with_history. fold p.
    by destruct (llm_invoke ext p).
  - intros w s chain q Hs Hp Hc Hq Hne Hchain p evs. subst evs p.
    rewrite (turn_events _ _ _ _ chain Hp Hc Hq Hne Hchain). cbn [fst snd].
    rewrite rewrite_calls_chain_calls, queries_chain_calls.
    rewrite (chain_calls_turn _ q _ _
               (stream_events ext chain (history_of (initialised s)) q)).
    destruct (Hgreet s Hs) as [rest ->].
    split; [discriminate|]. apply stream_calls_with_history.
  - intros w s s' evs outcome Hs Hrun.
    rewrite rewrite_calls_chain_calls, queries_chain_calls.
    destruct (main_chain_calls _ _ _ _ _ _ Hrun) as [H|(q & chain & Hq & _ & H)];
      rewrite H; [by left|].
    right. exists q. split; [exact Hq|].
    destruct (Hgreet s Hs) as [rest ->]. apply stream_calls_with_history.
Qed.

Lemma rewriting_skipped_only_on_empty_history_witness :
  let p := contextualize_q_prompt
             (str_of_history ex_services (history_of (initialised ex_ready)))
             "What is X?" in
  let evs := (main ex_services (ask "What is X?") ex_ready).1.2 in
  history_of (initialised ex_ready) <> []
  /\ rewrite_calls evs = [p]
  /\ queries evs = match llm_invoke ex_services p with
                   | Ok query => [query]
                   | Raise _ => []
                   end.
Proof.
  destruct (rewriting_skipped_only_on_empty_history ex_services)
    as (_ & _ & Hturn & _).
  apply (Hturn (ask "What is X?") ex_ready
           (mkRagChain [mkDocument "x" "a.pdf" 1; mkDocument "y" "a.pdf" 4])
           "What is X?"); try reflexivity.
  - apply (reachable_run ex_services (mkWidgets [ex_pdf] true false None) ex_fresh).
    apply reachable_start.
  - discriminate.
Defined.

(** C6 as stated fails: a question asked in a fresh session, where nothing
    was processed, raises no error.  The run ends normally, as any run
    does that meets no exception, and what tells the user is a warning on
    the page. *)
Lemma missing_index_raises_nothing :
  chain_of ex_fresh = None
  /\ (main ex_services (ask "What is X?") ex_fresh).2 = Finished
  /\ (forall e, (main ex_services (ask "What is X?") ex_fresh).2 <> Raised e)
  /\ Warning "Please upload and process your documents first."
     ∈ (main ex_services (ask "What is X?") ex_fresh).1.2.
Proof.
  split; [reflexivity|]. split; [reflexivity|]. split; [discriminate|].
  vm_compute. apply list_elem_of_In. simpl. auto.
Qed.

(** The page of twelve lines of 150 characters: six lines fill a chunk, and
    each next chunk starts with the last line of the one before, the
    longest run of lines of at most 200 characters. *)
Lemma even_page_carries_one_line :
  get_text_chunks [ex_even_page]
  = Ok [ mkDocument
           (Py.join nl (List.map (rep 150) ["a"; "b"; "c"; "d"; "e"; "f"]%char))
           "a.pdf" 1;
         mkDocument
           (Py.join nl (List.map (rep 150) ["f"; "g"; "h"; "i"; "j"; "k"]%char))
           "a.pdf" 1;
         mkDocument (Py.join nl (List.map (rep 150) ["k"; "l"]%char)) "a.pdf" 1 ].
Proof. vm_compute. reflexivity. Qed.
